(** * Chess overlay analyzer: board encoder, engine session, move formatter

    Shallow embedding of [board_detector.py], [stockfish_engine.py],
    [chess_analyzer.py] and of the analysis run of [overlay_app.py], and
    the properties of the encoder, the engine session, the move formatter
    and the run that are established about them.

    Conventions.  A Python [str] is a [string]; a Python list indexed by
    position is a [list] read with stdpp's lookup; a dictionary with string
    keys is a [gmap string _]; a call that may raise is a value of [res],
    whose [Raise] carries the text [str(e)] of the exception. *)

From Stdlib Require Import ZArith List String Ascii Bool Lia.
From Stdlib Require Import DecimalString.
From Corelib Require Import SpecFloat.
From stdpp Require Import base option list sorting gmap strings.

Local Open Scope string_scope.
Local Open Scope Z_scope.

(* ================================================================== *)
(** * Python glue: exceptions, loops, [str] of an integer                *)
(* ================================================================== *)

Module Py.

(** Outcome of a call: a value, or an exception whose [str(e)] is [msg]. *)
Inductive res (A : Type) : Type :=
| Ok (a : A)
| Raise (msg : string).
Arguments Ok {A} a.
Arguments Raise {A} msg.

#[global] Instance res_ret : MRet res := fun A a => Ok a.
#[global] Instance res_bind : MBind res := fun A B k m =>
  match m with
  | Ok a => k a
  | Raise msg => Raise msg
  end.

(** [for x in xs: body], threading the loop-carried variables [s]. *)
Fixpoint for_in {X S : Type} (xs : list X) (body : X -> S -> res S) (s : S)
  : res S :=
  match xs with
  | [] => Ok s
  | x :: xs' => s' ← body x s; for_in xs' body s'
  end.

(** [range(n)] *)
Definition range (n : nat) : list nat := seq 0 n.

(** [l[i]] for a non-negative index: [IndexError] outside the list. *)
Definition getitem {A} (l : list A) (i : nat) : res A :=
  match l !! i with
  | Some x => Ok x
  | None => Raise "list index out of range"
  end.

(** [str(n)] for an integer. *)
Definition str_of_Z (z : Z) : string := NilZero.string_of_int (Z.to_int z).
Definition str_of_nat (n : nat) : string := str_of_Z (Z.of_nat n).

End Py.
Import Py.

(* ================================================================== *)
(** * Binary64 floating point, as Python and NumPy use it                *)
(* ================================================================== *)

Module Float64.

Definition prec : Z := 53.
Definition emax : Z := 1024.

(** A [float]: IEEE 754 binary64, in the Standard Library's specification
    of floating-point numbers. *)
Definition float := spec_float.

(** [float(z)] *)
Definition of_Z (z : Z) : float := binary_normalize prec emax z 0 false.

Definition div : float -> float -> float := SFdiv prec emax.
Definition mul : float -> float -> float := SFmul prec emax.
Definition sqrt : float -> float := SFsqrt prec emax.
Definition ltb : float -> float -> bool := SFltb.
Definition leb : float -> float -> bool := SFleb.

(** The literal [0.02]: 5764607523034235 * 2^-58. *)
Definition lit_0_02 : float := S754_finite false 5764607523034235 (-58).

(** [max(a, b)] of Python: [b] when [b > a], else [a]. *)
Definition py_max (a b : float) : float := if ltb a b then b else a.

(** [int(x)]: truncation toward zero; not defined on nan and infinities. *)
Definition to_int (x : float) : res Z :=
  match x with
  | S754_zero _ => Ok 0
  | S754_finite s m e =>
      let a := if 0 <=? e then Z.pos m * 2 ^ e else Z.pos m / 2 ^ (- e) in
      Ok (if s then - a else a)
  | S754_infinity _ => Raise "cannot convert float infinity to integer"
  | S754_nan => Raise "cannot convert float NaN to integer"
  end.

(** Quotient [num / den] rounded to the nearest integer, ties to even
    ([0 <= num], [0 < den]). *)
Definition rne_div (num den : Z) : Z :=
  let q := num / den in
  let r := num mod den in
  match 2 * r ?= den with
  | Lt => q
  | Gt => q + 1
  | Eq => if Z.even q then q else q + 1
  end.

(** Exponent [floor(log2(n / d))] of a positive quotient. *)
Definition quot_log2 (n d : Z) : Z :=
  let l0 := Z.log2 n - Z.log2 d in
  if d * 2 ^ Z.max 0 l0 <=? n * 2 ^ Z.max 0 (- l0) then l0 else l0 - 1.

(** [a / b] on two Python integers (true division): the quotient correctly
    rounded to binary64, [ZeroDivisionError] for [b = 0], [OverflowError]
    when the quotient is beyond the largest float. *)
Definition int_true_divide (a b : Z) : res float :=
  if b =? 0 then Raise "division by zero"
  else if a =? 0 then Ok (S754_zero (b <? 0))
  else
    let s := xorb (a <? 0) (b <? 0) in
    let n := Z.abs a in
    let d := Z.abs b in
    let e := Z.max (quot_log2 n d - 52) (3 - emax - prec) in
    let m := rne_div (n * 2 ^ Z.max 0 (- e)) (d * 2 ^ Z.max 0 e) in
    let '(m, e) := if m =? 2 ^ 53 then (2 ^ 52, e + 1) else (m, e) in
    if m =? 0 then Ok (S754_zero s)
    else if emax - prec <? e
         then Raise "integer division result too large for a float"
         else Ok (S754_finite s (Z.to_pos m) e).

(** Two decimal digits of [0 <= k < 100]. *)
Definition two_digits (k : Z) : string :=
  str_of_Z (k / 10) +:+ str_of_Z (k mod 10).

(** [n] hundredths written with two decimals: [1234] is ["12.34"]. *)
Definition hundredths (neg : bool) (n : Z) : string :=
  (if neg then "-" else "") +:+ str_of_Z (n / 100) +:+ "." +:+
  two_digits (n mod 100).

(** [f"{x:.2f}"]: the exact value of [x] rounded to two decimals, ties to
    even. *)
Definition format_2f (x : float) : string :=
  match x with
  | S754_nan => "nan"
  | S754_infinity s => if s then "-inf" else "inf"
  | S754_zero s => hundredths s 0
  | S754_finite s m e =>
      hundredths s
        (if 0 <=? e then Z.pos m * 2 ^ e * 100
         else rne_div (Z.pos m * 100) (2 ^ (- e)))
  end.

End Float64.

(* ================================================================== *)
(** * board_detector.py: the detector and the position encoder          *)
(* ================================================================== *)

Module BoardDetector.
Import Float64.

(** ** Images *)

(** A NumPy image of 8-bit pixels: [shape] is [(h, w)] for a grayscale
    image and [(h, w, 3)] for a colour one (channels B, G, R). *)
Inductive ndarray : Type :=
| Gray (px : list (list Z))
| Color (px : list (list (Z * Z * Z))).

(** [image.shape[0]] *)
Definition height (a : ndarray) : nat :=
  match a with Gray px => length px | Color px => length px end.

(** [l[i:j]] for [0 <= i <= j]: clipped to the list, never an error. *)
Definition slice {A} (i j : nat) (l : list A) : list A :=
  take (j - i) (drop i l).

(** [image[y1:y2, x1:x2]] *)
Definition slice2 (a : ndarray) (y1 y2 x1 x2 : nat) : ndarray :=
  match a with
  | Gray px => Gray (map (slice x1 x2) (slice y1 y2 px))
  | Color px => Color (map (slice x1 x2) (slice y1 y2 px))
  end.

Definition point : Type := Z * Z.
Definition contour : Type := list point.

(** The OpenCV primitives the detector calls.  They are not part of the
    repository; the detector is parametric in what they compute.  They
    are taken on 8-bit images.  On an array without pixels
    [cv2.cvtColor] and [cv2.adaptiveThreshold] raise [cv2.error]; the
    calls on contours and corner points return. *)
Class OpenCV := {
  (** one pixel of [cv2.cvtColor(_, cv2.COLOR_BGR2GRAY)] *)
  bgr2gray : Z * Z * Z -> Z;
  (** the binary image of
      [cv2.adaptiveThreshold(gray, 255, GAUSSIAN_C, THRESH_BINARY, 11, 2)] *)
  adaptiveThreshold : list (list Z) -> list (list Z);
  (** [str(e)] of the [cv2.error] that the named function raises on an
      array without pixels *)
  cv2_error : string -> string;
  (** [cv2.findContours(binary, RETR_EXTERNAL, CHAIN_APPROX_SIMPLE)[0]] *)
  findContours : list (list Z) -> list contour;
  (** [cv2.arcLength(contour, True)] *)
  arcLength : contour -> float;
  (** [cv2.approxPolyDP(contour, epsilon, True)], reshaped to points *)
  approxPolyDP : contour -> float -> list point;
  (** [cv2.contourArea(contour)] *)
  contourArea : contour -> float;
  (** the 3x3 homography *)
  matrix : Type;
  (** [cv2.getPerspectiveTransform(src_pts, dst_pts)] *)
  getPerspectiveTransform : list point -> list point -> matrix;
  (** [cv2.warpPerspective(image, M, (w, h))] *)
  warpPerspective : ndarray -> matrix -> Z * Z -> ndarray
}.

Section Detector.
Context `{cv : OpenCV}.

(** An array without elements: no row, or rows without columns. *)
Definition no_pixels {A} (px : list (list A)) : bool :=
  match concat px with
  | [] => true
  | _ :: _ => false
  end.

(** The pixels that [cv2.cvtColor(image, cv2.COLOR_BGR2GRAY)] computes. *)
Definition gray_pixels (px : list (list (Z * Z * Z))) : list (list Z) :=
  map (map bgr2gray) px.

(** [cv2.cvtColor(image, cv2.COLOR_BGR2GRAY)] on a colour image:
    [cv2.error] on an array without pixels. *)
Definition cvtColor (px : list (list (Z * Z * Z))) : res (list (list Z)) :=
  if no_pixels px then Raise (cv2_error "cvtColor") else Ok (gray_pixels px).

(** [cv2.adaptiveThreshold(gray, 255, ...)]: [cv2.error] on an array
    without pixels. *)
Definition threshold (gray : list (list Z)) : res (list (list Z)) :=
  if no_pixels gray then Raise (cv2_error "adaptiveThreshold")
  else Ok (adaptiveThreshold gray).

(** The grayscale pixels of an image: those of the conversion for a
    colour image, its own for a grayscale one. *)
Definition to_gray (image : ndarray) : list (list Z) :=
  match image with
  | Color px => gray_pixels px
  | Gray px => px
  end.

(** The statement both methods start with: a colour image
    ([len(image.shape) == 3]) is converted with [cv2.cvtColor], which may
    raise; a grayscale one is used as it is. *)
Definition gray_of (image : ndarray) : res (list (list Z)) :=
  match image with
  | Color px => cvtColor px
  | Gray px => Ok px
  end.

(** [np.mean(gray)]: the float sum of the pixels divided by their number;
    nan for an array without elements. *)
Definition np_mean (gray : list (list Z)) : float :=
  let flat := concat gray in
  div (of_Z (foldr Z.add 0 flat)) (of_Z (Z.of_nat (length flat))).

(** ** [ChessBoardDetector.__init__]: the parameter the methods read *)
Record ChessBoardDetector := {
  min_board_size : Z;
}.

Definition __init__ : ChessBoardDetector := {| min_board_size := 200 |}.

(** ** [detect_board] *)

(** [sorted(l, key=key)]: stable. *)
Fixpoint insert_by {A} (key : A -> Z) (x : A) (l : list A) : list A :=
  match l with
  | [] => [x]
  | y :: l' => if key x <=? key y then x :: l else y :: insert_by key x l'
  end.

Definition sorted {A} (key : A -> Z) (l : list A) : list A :=
  foldr (insert_by key) [] l.

(** [np.linalg.norm(p - q)] *)
Definition norm (p q : point) : float :=
  let dx := p.1 - q.1 in
  let dy := p.2 - q.2 in
  sqrt (of_Z (dx * dx + dy * dy)).

(** The body of the [if] of [detect_board]: order the corners, size the
    square canvas and warp. *)
Definition rectify (image : ndarray) (approx : list point) : res ndarray :=
  let corners := sorted (fun p => p.1 + p.2) approx in
  top_left ← getitem corners 0;
  bottom_right ← getitem corners 3;
  c1 ← getitem corners 1;
  c2 ← getitem corners 2;
  let remaining := sorted (fun p => p.2 - p.1) [c1; c2] in
  top_right ← getitem remaining 0;
  bottom_left ← getitem remaining 1;
  let src_pts := [top_left; top_right; bottom_right; bottom_left] in
  let width := py_max (norm top_right top_left)
                      (norm bottom_right bottom_left) in
  let height := py_max (norm bottom_left top_left)
                       (norm bottom_right top_right) in
  w ← to_int width;
  h ← to_int height;
  let square_size := Z.max w h in
  let dst_pts := [(0, 0); (square_size - 1, 0);
                  (square_size - 1, square_size - 1); (0, square_size - 1)] in
  let M := getPerspectiveTransform src_pts dst_pts in
  Ok (warpPerspective image M (square_size, square_size)).

(** The [for contour in contours] loop: the first contour whose polygon
    has four corners and whose area is large enough is rectified and
    returned; [None] when the loop runs out. *)
Fixpoint first_board (self : ChessBoardDetector) (image : ndarray)
    (contours : list contour) : res (option ndarray) :=
  match contours with
  | [] => Ok None
  | contour :: rest =>
      let perimeter := arcLength contour in
      let approx := approxPolyDP contour (mul lit_0_02 perimeter) in
      if (length approx =? 4)%nat &&
         ltb (of_Z (min_board_size self * min_board_size self))
             (contourArea contour)
      then warped ← rectify image approx; Ok (Some warped)
      else first_board self image rest
  end.

(** The test of the [if] in the loop: four corners and a large enough
    area. *)
Definition passes (self : ChessBoardDetector) (c : contour) : Prop :=
  length (approxPolyDP c (mul lit_0_02 (arcLength c))) = 4%nat /\
  ltb (of_Z (min_board_size self * min_board_size self)) (contourArea c)
  = true.

Definition detect_board (self : ChessBoardDetector) (image : ndarray)
  : res (option ndarray) :=
  gray ← gray_of image;
  binary ← threshold gray;
  let contours := findContours binary in
  first_board self image contours.

(** ** [_detect_piece_on_square]: the brightness classifier *)
Definition _detect_piece_on_square (square_img : ndarray) : res string :=
  gray ← gray_of square_img;
  let avg_brightness := np_mean gray in
  Ok (if ltb (of_Z 90) avg_brightness && ltb avg_brightness (of_Z 170)
      then " "
      else if leb (of_Z 170) avg_brightness then "P"
      else "p").

End Detector.

(** ** [_board_to_fen] *)

(** The 8x8 board of the encoder: a list of rows of one-character piece
    symbols, [" "] for an empty square. *)
Abbreviation board_t := (list (list string)).

(** Body of the inner loop of [_board_to_fen] for one cell. *)
Definition fen_cell (cell : string) (st : nat * string) : nat * string :=
  let '(empty_count, fen) := st in
  if String.eqb cell " " then (S empty_count, fen)
  else
    let fen := if (0 <? empty_count)%nat
               then fen +:+ str_of_nat empty_count else fen in
    (0%nat, fen +:+ cell).

(** [_board_to_fen(board)]: ranks in list order, runs of empty squares
    collapsed to their count, ["/"] between ranks, then the fixed suffix. *)
Definition _board_to_fen (board : board_t) : res string :=
  fen ← for_in (range 8) (fun row fen =>
    '(empty_count, fen) ← for_in (range 8) (fun col st =>
        brow ← getitem board row;
        cell ← getitem brow col;
        Ok (fen_cell cell st)) (0%nat, fen);
    let fen := if (0 <? empty_count)%nat
               then fen +:+ str_of_nat empty_count else fen in
    let fen := if (row <? 7)%nat then fen +:+ "/" else fen in
    Ok fen) "";
  Ok (fen +:+ " w KQkq - 0 1").

(** ** [get_position_fen] *)

(** A classifier of one square, as [get_position_fen] calls it: it may
    raise, and returns a piece symbol or [None]. *)
Definition classifier := ndarray -> res (option string).

(** Truth value of the classifier's answer in [if piece:]. *)
Definition truthy (piece : option string) : bool :=
  match piece with
  | Some s => negb (String.eqb s "")
  | None => false
  end.

(** [board[r][c] = piece] *)
Definition setitem2 (board : board_t) (r c : nat) (piece : string) : board_t :=
  alter (fun brow => <[c := piece]> brow) r board.

Definition starting_fen : string :=
  "rnbqkbnr/pppppppp/8/8/8/8/PPPPPPPP/RNBQKBNR w KQkq - 0 1".

(** The body of the [try] block.  [board_image] is [None] when the caller
    passes Python's [None]. *)
Definition position_fen_try (classify : classifier)
    (board_image : option ndarray) : res string :=
  image ← match board_image with
          | Some a => Ok a
          | None => Raise "'NoneType' object has no attribute 'shape'"
          end;
  let square_size := (height image / 8)%nat in
  let board : board_t := replicate 8 (replicate 8 " ") in
  board ← for_in (range 8) (fun row board =>
    for_in (range 8) (fun col board =>
      let y1 := (row * square_size)%nat in
      let y2 := ((row + 1) * square_size)%nat in
      let x1 := (col * square_size)%nat in
      let x2 := ((col + 1) * square_size)%nat in
      let square_img := slice2 image y1 y2 x1 x2 in
      piece ← classify square_img;
      Ok (if truthy piece
          then setitem2 board (7 - row) col (default "" piece)
          else board)) board) board;
  _board_to_fen board.

(** [get_position_fen(board_image)] with the classifier as a parameter:
    the lines printed and the string returned. *)
Definition get_position_fen_with (classify : classifier)
    (board_image : option ndarray) : list string * string :=
  match position_fen_try classify board_image with
  | Ok fen => ([], fen)
  | Raise msg => (["Error in position extraction: " +:+ msg], starting_fen)
  end.

(** The call [self._detect_piece_on_square(square_img)] of
    [get_position_fen]: the class's own classifier. *)
Definition own_classifier `{cv : OpenCV} : classifier :=
  fun square_img =>
    piece ← _detect_piece_on_square square_img; Ok (Some piece).

(** [get_position_fen(board_image)] of the class, whose classifier is
    [_detect_piece_on_square]. *)
Definition get_position_fen `{cv : OpenCV} (board_image : option ndarray)
  : list string * string :=
  get_position_fen_with own_classifier board_image.

(** ** What the encoder reads off an image *)

(** The square image the loop cuts out for cell [(row, col)]. *)
Definition square_at (image : ndarray) (row col : nat) : ndarray :=
  let square_size := (height image / 8)%nat in
  slice2 image (row * square_size) ((row + 1) * square_size)
    (col * square_size) ((col + 1) * square_size).

(** One turn of the inner loop. *)
Definition classify_cell (classify : classifier) (image : ndarray)
    (row col : nat) (board : board_t) : res board_t :=
  piece ← classify (square_at image row col);
  Ok (if truthy piece
      then setitem2 board (7 - row) col (default "" piece)
      else board).

(** The symbol kept for an answer of the classifier: the answer when it
    is truthy, the initial [" "] otherwise. *)
Definition label_of (piece : option string) : string :=
  if truthy piece then default "" piece else " ".

Definition cell_label (classify : classifier) (image : ndarray)
    (row col : nat) : string :=
  match classify (square_at image row col) with
  | Ok piece => label_of piece
  | Raise _ => " "
  end.

(** The labels of the 64 image cells, image row 0 (the top) first. *)
Definition image_labels (classify : classifier) (image : ndarray) : board_t :=
  map (fun row => map (cell_label classify image row) (seq 0 8)) (seq 0 8).

(** The classifier answers on each of the 64 squares of the image. *)
Definition answers (classify : classifier) (image : ndarray) : Prop :=
  forall row col, (row < 8)%nat -> (col < 8)%nat ->
    exists piece, classify (square_at image row col) = Ok piece.

(** The encoder meets an internal failure: there is no image, or the
    classifier raises on one of the squares. *)
Definition internal_failure (classify : classifier)
    (board_image : option ndarray) : Prop :=
  board_image = None \/
  exists image row col msg,
    board_image = Some image /\ (row < 8)%nat /\ (col < 8)%nat /\
    classify (square_at image row col) = Raise msg.

End BoardDetector.

(* ================================================================== *)
(** * The python-chess interface                                         *)
(* ================================================================== *)

Module Chess.

(** [chess.Piece]: [piece_type] is an integer ([chess.PAWN = 1] ...
    [chess.KING = 6]), [color] is [True] for white. *)
Record Piece := { piece_type : Z; color : bool }.

Definition PAWN : Z := 1.
Definition KNIGHT : Z := 2.
Definition BISHOP : Z := 3.
Definition ROOK : Z := 4.
Definition QUEEN : Z := 5.
Definition KING : Z := 6.
Definition WHITE : bool := true.

(** The part of python-chess the analyzer and the engine client call.  It
    is not part of the repository; both are parametric in it. *)
Class ChessLib := {
  Board : Type;
  Move : Type;
  (** [chess.Board(fen)]: raises [ValueError] on a string that is not a
      position *)
  chess_Board : string -> res Board;
  (** [chess.Move.from_uci(uci)]: raises on a malformed move *)
  from_uci : string -> res Move;
  (** [move.uci()] *)
  uci : Move -> string;
  from_square : Move -> Z;
  to_square : Move -> Z;
  promotion : Move -> option Z;
  piece_at : Board -> Z -> option Piece;
  is_capture : Board -> Move -> bool;
  is_castling : Board -> Move -> bool;
  (** [board.push(move)]: the board after the move *)
  push : Board -> Move -> Board;
  is_check : Board -> bool;
  is_checkmate : Board -> bool;
  square_name : Z -> string;
  square_file : Z -> Z
}.

End Chess.

(* ================================================================== *)
(** * stockfish_engine.py: the engine session                           *)
(* ================================================================== *)

Module StockfishEngine.
Import Float64 Chess.

(** A Python value stored in a result dictionary. *)
Inductive pyval : Type :=
| PyNone
| PyStr (s : string)
| PyInt (z : Z)
| PyList (l : list string).

(** [chess.engine.Score]: a centipawn value, a mate in [moves] moves
    (negative when the side is mated), or mate given. *)
Inductive Score : Type :=
| Cp (cp : Z)
| Mate (moves : Z)
| MateGiven.

(** [chess.engine.PovScore], the value of [info['score']]: a score and
    the side it is relative to.  It has the method [is_mate()]; the method
    [mate()] and the attribute [cp] are on [Score], not on [PovScore]. *)
Record PovScore := { relative : Score; turn : bool }.

(** [score_obj.is_mate()] *)
Definition is_mate (score_obj : PovScore) : bool :=
  match relative score_obj with
  | Cp _ => false
  | Mate _ | MateGiven => true
  end.

(** [score_obj.mate()] and [score_obj.cp] on a [PovScore]:
    [AttributeError]. *)
Definition PovScore_mate (score_obj : PovScore) : res Z :=
  Raise "'PovScore' object has no attribute 'mate'".

Definition PovScore_cp (score_obj : PovScore) : res (option Z) :=
  Raise "'PovScore' object has no attribute 'cp'".

(** [chess.engine.Limit(depth=..., time=...)] *)
Record Limit := { limit_depth : Z; limit_time : float }.

Section Session.
Context `{lib : ChessLib}.

(** The [info] dictionary of [engine.analyse]: each of the three keys the
    client reads may be missing. *)
Record InfoDict := {
  info_pv : option (list Move);
  info_score : option PovScore;
  info_depth : option Z
}.

(** The result of [engine.play]: [result.move] may be [None]. *)
Record PlayResult := { move : option Move }.

(** A handle on a running engine process. *)
Definition handle := nat.

(** The calls made to the engine library, in order: the protocol traffic
    of the session. *)
Inductive call : Type :=
| Popen (path : string)
| Configure (h : handle) (threads hash : Z)
| Analyse (h : handle) (board : Board) (limit : Limit)
| Play (h : handle) (board : Board) (limit : Limit)
| Quit (h : handle).

(** The engine library and the process behind it: the outcome of each
    call, which may depend on every call made before it. *)
Record Engine := {
  popen_uci : list call -> string -> res handle;
  configure : list call -> handle -> res unit;
  analyse : list call -> handle -> Board -> Limit -> res InfoDict;
  play : list call -> handle -> Board -> Limit -> res PlayResult;
  engine_quit : list call -> handle -> res unit
}.

(** The object: [self.engine] is [None] or a handle; [trace] is the list
    of calls made so far.  The lock only matters between threads and is
    left out of this sequential model, as are the diagnostic prints. *)
Record StockfishEngine := {
  stockfish_path : string;
  engine : option handle;
  trace : list call
}.

Definition set_engine (self : StockfishEngine) (e : option handle)
    (calls : list call) : StockfishEngine :=
  {| stockfish_path := stockfish_path self;
     engine := e;
     trace := (trace self ++ calls)%list |}.

Variable w : Engine.

(** [_init_engine]: spawn and configure; any exception leaves
    [self.engine = None]. *)
Definition _init_engine (self : StockfishEngine) : StockfishEngine :=
  let path := stockfish_path self in
  match popen_uci w (trace self) path with
  | Raise _ => set_engine self None [Popen path]
  | Ok h =>
      match configure w (trace self ++ [Popen path])%list h with
      | Raise _ => set_engine self None [Popen path; Configure h 2 32]
      | Ok _ => set_engine self (Some h) [Popen path; Configure h 2 32]
      end
  end.

(** [StockfishEngine()] on a platform whose engine binary is at [path] *)
Definition __init__ (path : string) : StockfishEngine :=
  _init_engine {| stockfish_path := path; engine := None; trace := [] |}.

(** The score text computed from [info['score']]: both branches start
    with an attribute that a [PovScore] does not have. *)
Definition score_text (score_obj : PovScore) : res pyval :=
  if is_mate score_obj then
    mate_in ← PovScore_mate score_obj;
    Ok (PyStr (if 0 <? mate_in
               then "Mate in " +:+ str_of_Z mate_in
               else "Mated in " +:+ str_of_Z (- mate_in)))
  else
    cp ← PovScore_cp score_obj;
    match cp with
    | Some cp => x ← int_true_divide cp 100; Ok (PyStr (format_2f x))
    | None => Ok (PyStr "0.00")
    end.

Definition error_dict (msg : string) : gmap string pyval :=
  {[ "error" := PyStr msg ]}.

(** The [try] block of [get_best_move], entered with a live engine [h]:
    the dictionary returned and the calls made. *)
Definition best_move_try (self : StockfishEngine) (h : handle)
    (fen : string) (depth : Z) (time_limit : float)
  : res (gmap string pyval) * list call :=
  match chess_Board fen with
  | Raise msg => (Raise msg, [])
  | Ok board =>
      let limit := {| limit_depth := depth; limit_time := time_limit |} in
      let c1 := [Analyse h board limit] in
      match analyse w (trace self) h board limit with
      | Raise msg => (Raise msg, c1)
      | Ok info =>
          let pv := match info_pv info with
                    | Some moves => map uci moves
                    | None => []
                    end in
          let c2 := (c1 ++ [Play h board limit])%list in
          match play w (trace self ++ c1)%list h board limit with
          | Raise msg => (Raise msg, c2)
          | Ok result =>
              let best_move := match move result with
                               | Some m => PyStr (uci m)
                               | None => PyNone
                               end in
              let score := match info_score info with
                           | Some score_obj => score_text score_obj
                           | None => Ok PyNone
                           end in
              (score ← score;
               Ok (<["best_move" := best_move]>
                   (<["score" := score]>
                   (<["depth" := PyInt (default 0 (info_depth info))]>
                   (<["pv" := PyList pv]> ∅)))), c2)
          end
      end
  end.

(** The first [if not self.engine:] of [get_best_move]: a session
    without a handle is initialised again. *)
Definition ensure_engine (self : StockfishEngine) : StockfishEngine :=
  match engine self with
  | None => _init_engine self
  | Some _ => self
  end.

(** [get_best_move(fen, depth, time_limit)] *)
Definition get_best_move (self : StockfishEngine) (fen : string)
    (depth : Z) (time_limit : float)
  : gmap string pyval * StockfishEngine :=
  let self := ensure_engine self in
  match engine self with
  | None => (error_dict "Could not initialize engine", self)
  | Some h =>
      let '(r, calls) := best_move_try self h fen depth time_limit in
      let self := set_engine self (engine self) calls in
      match r with
      | Ok d => (d, self)
      | Raise msg => (error_dict ("Analysis error: " +:+ msg), self)
      end
  end.

(** [quit()]: an exception of [engine.quit()] leaves the handle in place
    and escapes. *)
Definition quit (self : StockfishEngine) : res unit * StockfishEngine :=
  match engine self with
  | None => (Ok (), self)
  | Some h =>
      match engine_quit w (trace self) h with
      | Ok _ => (Ok (), set_engine self None [Quit h])
      | Raise msg => (Raise msg, set_engine self (Some h) [Quit h])
      end
  end.

End Session.
End StockfishEngine.

(* ================================================================== *)
(** * chess_analyzer.py                                                  *)
(* ================================================================== *)

Module ChessAnalyzer.
Import Float64 Chess StockfishEngine.

Section Analyzer.
Context `{lib : ChessLib}.
Variable w : Engine.

Record ChessAnalyzer := {
  stockfish : StockfishEngine;
  piece_names : gmap Z string
}.

(** [ChessAnalyzer()] *)
Definition __init__ (path : string) : ChessAnalyzer :=
  {| stockfish := StockfishEngine.__init__ w path;
     piece_names :=
       <[PAWN := "pawn"]> (<[KNIGHT := "knight"]> (<[BISHOP := "bishop"]>
       (<[ROOK := "rook"]> (<[QUEEN := "queen"]> (<[KING := "king"]> ∅))))) |}.

(** [d.get(key)] and [d.get(key, dflt)] *)
Definition dict_get (d : gmap string pyval) (key : string) (dflt : pyval)
  : pyval := default dflt (d !! key).

(** [analyze_position(fen, depth, time_limit)] *)
Definition analyze_position (self : ChessAnalyzer) (fen : string)
    (depth : Z) (time_limit : float)
  : gmap string pyval * ChessAnalyzer :=
  match chess_Board fen with
  | Raise _ => (error_dict "Invalid FEN string", self)
  | Ok _ =>
      let '(result, sf) :=
        get_best_move w (stockfish self) fen depth time_limit in
      (<["fen" := PyStr fen]>
       (<["best_move" := dict_get result "best_move" PyNone]>
       (<["score" := dict_get result "score" PyNone]>
       (<["depth" := dict_get result "depth" PyNone]>
       (<["pv" := dict_get result "pv" (PyList [])]> ∅)))),
       {| stockfish := sf; piece_names := piece_names self |})
  end.

(** ["white" if piece.color == chess.WHITE else "black"] *)
Definition color_name (c : bool) : string :=
  if Bool.eqb c WHITE then "white" else "black".

Definition piece_name (self : ChessAnalyzer) (pt : Z) : string :=
  default "piece" (piece_names self !! pt).

(** The [try] block of [format_move_with_pieces]. *)
Definition format_move_try (self : ChessAnalyzer) (fen move_uci : string)
  : res string :=
  board ← chess_Board fen;
  move ← from_uci move_uci;
  match piece_at board (from_square move) with
  | None =>
      Ok ("Move from " +:+ square_name (from_square move) +:+ " to " +:+
          square_name (to_square move))
  | Some piece =>
      let piece_name_ := piece_name self (piece_type piece) in
      let color_ := color_name (color piece) in
      let capture :=
        if is_capture board move then
          match piece_at board (to_square move) with
          | Some captured_piece =>
              ", capturing the " +:+ color_name (color captured_piece) +:+
              " " +:+ piece_name self (piece_type captured_piece)
          | None => ""
          end
        else "" in
      let promotion_ :=
        match promotion move with
        | Some p =>
            if p =? 0 then ""
            else ", promoting to a " +:+ piece_name self p
        | None => ""
        end in
      let special_move :=
        if is_castling board move then
          if square_file (from_square move) <? square_file (to_square move)
          then " (kingside castling)"
          else " (queenside castling)"
        else "" in
      let board := push board move in
      let check_status :=
        if is_check board then
          if is_checkmate board then ", checkmate" else ", check"
        else "" in
      let from_square_ := square_name (from_square move) in
      let to_square_ := square_name (to_square move) in
      Ok (color_ +:+ " " +:+ piece_name_ +:+ " from " +:+ from_square_ +:+
          " to " +:+ to_square_ +:+ capture +:+ promotion_ +:+
          special_move +:+ check_status)
  end.

(** [format_move_with_pieces(fen, move_uci)]; [move_uci] is [None] when
    the caller passes Python's [None]. *)
Definition format_move_with_pieces (self : ChessAnalyzer) (fen : string)
    (move_uci : option string) : string :=
  match move_uci with
  | None => "No move available"
  | Some text =>
      if String.eqb text "" || (String.length text <? 4)%nat
      then "No move available"
      else
        match format_move_try self fen text with
        | Ok description => description
        | Raise _ => "Move " +:+ text
        end
  end.

End Analyzer.
End ChessAnalyzer.

(* ================================================================== *)
(** * overlay_app.py: one run of the analysis                            *)
(* ================================================================== *)

Module OverlayApp.
Import Float64 BoardDetector Chess StockfishEngine.

(** [str(v)] of a value of a result dictionary.  A list is written with
    its texts between single quotes, as Python writes texts that hold no
    quote, backslash or control character: the moves of a line are such
    texts. *)
Fixpoint join (sep : string) (l : list string) : string :=
  match l with
  | [] => ""
  | [s] => s
  | s :: l' => s +:+ sep +:+ join sep l'
  end.

Definition py_str (v : pyval) : string :=
  match v with
  | PyNone => "None"
  | PyStr s => s
  | PyInt z => str_of_Z z
  | PyList l => "[" +:+ join ", " (map (fun s => "'" +:+ s +:+ "'") l) +:+ "]"
  end.

(** The line feed of ["...\nScore: ..."]. *)
Definition nl : string := String (ascii_of_nat 10) EmptyString.

(** What a run of the worker asks of the rest of the application, in
    order: a callback scheduled on the clock for the main thread (a
    status text, the status of the [except] branch, or the display of a
    result), or a text handed to the speech service.

    [ErrorStatus msg] is the callback of the [except] branch,
    [lambda dt: setattr(self.status_label, 'text', f"Error: {str(e)}")],
    scheduled when the exception caught has the text [msg].  The callback
    reads the variable [e] of the [except] clause, which Python unbinds
    when the clause ends, before the clock calls it. *)
Inductive request : Type :=
| SetStatus (text : string)
| ErrorStatus (msg : string)
| UpdateResults (best_move : pyval) (move_text : string) (score : pyval)
| Speak (text : string).

(** [str(e)] of the [NameError] raised by reading the unbound [e], in
    the wording of CPython 3.10; other versions word it differently. *)
Definition unbound_e : string :=
  "free variable 'e' referenced before assignment in enclosing scope".

(** [TTSService.speak(text)]: nothing for an empty text. *)
Definition speak (text : string) : list request :=
  if String.eqb text "" then [] else [Speak text].

Section Widget.
Context `{cv : OpenCV} `{lib : ChessLib}.
Variable w : Engine.

(** The attributes of [ChessOverlayWidget] that the analysis reads or
    writes; [status_text] is [self.status_label.text].  The diagnostic
    prints of the components are left out, as in the engine session. *)
Record ChessOverlayWidget := {
  analyzer : ChessAnalyzer.ChessAnalyzer;
  board_detector : ChessBoardDetector;
  analyzing : bool;
  status_text : string;
  best_move_start : pyval;
  best_move_end : pyval
}.

Definition set_analyzing (self : ChessOverlayWidget) (b : bool)
  : ChessOverlayWidget :=
  {| analyzer := analyzer self; board_detector := board_detector self;
     analyzing := b; status_text := status_text self;
     best_move_start := best_move_start self;
     best_move_end := best_move_end self |}.

Definition set_status (self : ChessOverlayWidget) (text : string)
  : ChessOverlayWidget :=
  {| analyzer := analyzer self; board_detector := board_detector self;
     analyzing := analyzing self; status_text := text;
     best_move_start := best_move_start self;
     best_move_end := best_move_end self |}.

Definition set_analyzer (self : ChessOverlayWidget)
    (an : ChessAnalyzer.ChessAnalyzer) : ChessOverlayWidget :=
  {| analyzer := an; board_detector := board_detector self;
     analyzing := analyzing self; status_text := status_text self;
     best_move_start := best_move_start self;
     best_move_end := best_move_end self |}.

Definition set_arrow (self : ChessOverlayWidget) (start_ end_ : pyval)
  : ChessOverlayWidget :=
  {| analyzer := analyzer self; board_detector := board_detector self;
     analyzing := analyzing self; status_text := status_text self;
     best_move_start := start_; best_move_end := end_ |}.

(** [start_analysis(instance)]: whether a worker thread is started, and
    the widget. *)
Definition start_analysis (self : ChessOverlayWidget)
  : bool * ChessOverlayWidget :=
  if analyzing self then (false, self)
  else (true, set_status (set_analyzing self true) "Taking screenshot...").

(** [self.analyzer.format_move_with_pieces(fen, best_move)] on the value
    read from the dictionary.  On a number and on a list the guard and
    the [try] block are evaluated as Python does: [len] of a number
    raises outside the [try], and [chess.Move.from_uci] of a list raises
    inside it. *)
Definition format_move (an : ChessAnalyzer.ChessAnalyzer) (fen : string)
    (best_move : pyval) : res string :=
  match best_move with
  | PyNone => Ok (ChessAnalyzer.format_move_with_pieces an fen None)
  | PyStr s => Ok (ChessAnalyzer.format_move_with_pieces an fen (Some s))
  | PyInt z =>
      if z =? 0 then Ok "No move available"
      else Raise "object of type 'int' has no len()"
  | PyList l =>
      if (length l <? 4)%nat then Ok "No move available"
      else Ok ("Move " +:+ py_str best_move)
  end.

(** [analyze_position()], the body of the worker thread.
    [take_screenshot] is the outcome of [self.take_screenshot()], which
    is platform code.  The result is the list of requests made, in
    order, and the widget at the end. *)
Definition analyze_position (self : ChessOverlayWidget)
    (take_screenshot : res ndarray) : list request * ChessOverlayWidget :=
  match take_screenshot with
  | Raise msg => ([ErrorStatus msg], set_analyzing self false)
  | Ok screenshot =>
      let r1 := [SetStatus "Detecting board..."] in
      match detect_board (board_detector self) screenshot with
      | Raise msg => ((r1 ++ [ErrorStatus msg])%list, set_analyzing self false)
      | Ok None =>
          ((r1 ++ [SetStatus "Could not detect chess board"])%list,
           set_analyzing self false)
      | Ok (Some board_image) =>
          let r2 := (r1 ++ [SetStatus "Recognizing position..."])%list in
          let fen := (get_position_fen (Some board_image)).2 in
          if String.eqb fen "" then
            ((r2 ++ [SetStatus "Could not recognize position"])%list,
             set_analyzing self false)
          else
            let r3 :=
              (r2 ++ [SetStatus "Analyzing with Stockfish..."])%list in
            let '(result, an) :=
              ChessAnalyzer.analyze_position w (analyzer self) fen 18
                (of_Z 2) in
            let self := set_analyzer self an in
            let best_move := ChessAnalyzer.dict_get result "best_move" PyNone in
            let score := ChessAnalyzer.dict_get result "score" (PyInt 0) in
            match format_move an fen best_move with
            | Raise msg =>
                ((r3 ++ [ErrorStatus msg])%list, set_analyzing self false)
            | Ok move_text =>
                ((r3 ++ [UpdateResults best_move move_text score] ++
                  speak ("Best move: " +:+ move_text))%list,
                 set_analyzing self false)
            end
      end
  end.

(** [update_analysis_results(best_move, move_text, score)], the scheduled
    display of a result: the status text is set first, then the move is
    cut into its two squares, which raises on [None] and on a number. *)
Definition update_analysis_results (self : ChessOverlayWidget)
    (best_move : pyval) (move_text : string) (score : pyval)
  : res unit * ChessOverlayWidget :=
  let self :=
    set_status self
      ("Best move: " +:+ move_text +:+ nl +:+ "Score: " +:+ py_str score) in
  match best_move with
  | PyStr s =>
      (Ok (), set_arrow self (PyStr (substring 0 2 s))
                (PyStr (substring 2 2 s)))
  | PyList l =>
      (Ok (), set_arrow self (PyList (take 2 l)) (PyList (take 2 (drop 2 l))))
  | PyNone => (Raise "'NoneType' object is not subscriptable", self)
  | PyInt _ => (Raise "'int' object is not subscriptable", self)
  end.

(** The clock's call of a scheduled callback: its outcome and the widget
    afterwards.  A text for the speech service is no callback and leaves
    the widget as it is. *)
Definition run_callback (self : ChessOverlayWidget) (r : request)
  : res unit * ChessOverlayWidget :=
  match r with
  | SetStatus text => (Ok (), set_status self text)
  | ErrorStatus _ => (Raise unbound_e, self)
  | UpdateResults best_move move_text score =>
      update_analysis_results self best_move move_text score
  | Speak _ => (Ok (), self)
  end.

End Widget.
End OverlayApp.

(* ================================================================== *)
(** * The board-state notation: grids, decoding, auxiliary functions     *)
(* ================================================================== *)

Module FenNotation.
Import BoardDetector.

(** The thirteen piece labels: the empty square and the twelve pieces. *)
Definition piece_labels : list string :=
  [" "; "P"; "N"; "B"; "R"; "Q"; "K"; "p"; "n"; "b"; "r"; "q"; "k"].

(** A well-formed rank: eight piece labels. *)
Definition rank_ok (brow : list string) : Prop :=
  length brow = 8%nat /\ Forall (fun cell => cell ∈ piece_labels) brow.

(** A well-formed grid: eight well-formed ranks. *)
Definition grid8 (board : board_t) : Prop :=
  length board = 8%nat /\ Forall rank_ok board.

(** The standard initial position as a grid, rank 8 first. *)
Definition initial_grid : board_t :=
  [ ["r"; "n"; "b"; "q"; "k"; "b"; "n"; "r"];
    replicate 8 "p";
    replicate 8 " "; replicate 8 " "; replicate 8 " "; replicate 8 " ";
    replicate 8 "P";
    ["R"; "N"; "B"; "Q"; "K"; "B"; "N"; "R"] ].

(** An ASCII letter. *)
Definition is_letter (c : ascii) : bool :=
  let n := nat_of_ascii c in
  ((65 <=? n) && (n <=? 90) || (97 <=? n) && (n <=? 122))%nat.

(** Decoding of a placement field, in the words of the specification: a
    digit expands to that many empty squares, a letter to a piece, and
    ["/"] separates the ranks; any other character is rejected.  [cur] is
    the part of the current rank read so far.  The repository has no
    decoder of its own (python-chess reads the notation). *)
Fixpoint decode_ranks (s : string) (cur : list string)
  : option (list (list string)) :=
  match s with
  | EmptyString => Some [cur]
  | String c s' =>
      if Ascii.eqb c "/" then
        ranks ← decode_ranks s' []; Some (cur :: ranks)
      else
        match Ascii.is_nat c with
        | Some n => decode_ranks s' (cur ++ replicate n " ")%list
        | None =>
            if is_letter c
            then decode_ranks s' (cur ++ [String c EmptyString])%list
            else None
        end
  end.

Definition decode_placement (s : string) : option (list (list string)) :=
  decode_ranks s [].

(** The first space-separated field of a notation string. *)
Fixpoint placement_field (s : string) : string :=
  match s with
  | EmptyString => EmptyString
  | String c s' =>
      if Ascii.eqb c " " then EmptyString else String c (placement_field s')
  end.

(** Number of occurrences of the character [c] in [s]. *)
Fixpoint count_char (c : ascii) (s : string) : nat :=
  match s with
  | EmptyString => 0%nat
  | String c' s' => ((if Ascii.eqb c' c then 1 else 0) + count_char c s')%nat
  end.

(** The text [_board_to_fen] appends for the cells [r] of a rank when
    [e] empty squares are pending, up to and including the final count. *)
Fixpoint encode_cells (r : list string) (e : nat) : string :=
  match r with
  | [] => if (0 <? e)%nat then str_of_nat e else ""
  | c :: r' =>
      if String.eqb c " " then encode_cells r' (S e)
      else (if (0 <? e)%nat then str_of_nat e else "") +:+ c +:+
           encode_cells r' 0
  end.

(** The ranks joined by ["/"]. *)
Fixpoint encode_rows (rows : list (list string)) : string :=
  match rows with
  | [] => ""
  | [r] => encode_cells r 0
  | r :: rs => encode_cells r 0 +:+ "/" +:+ encode_rows rs
  end.

(** Text pending for [e] empty squares. *)
Definition flush (e : nat) : string :=
  if (0 <? e)%nat then str_of_nat e else "".

(** The body of the outer loop of [_board_to_fen]. *)
Definition row_step (board : board_t) (row : nat) (fen : string)
  : res string :=
  '(empty_count, fen) ← for_in (range 8) (fun col st =>
      brow ← getitem board row;
      cell ← getitem brow col;
      Ok (fen_cell cell st)) (0%nat, fen);
  let fen := if (0 <? empty_count)%nat
             then fen +:+ str_of_nat empty_count else fen in
  let fen := if (row <? 7)%nat then fen +:+ "/" else fen in
  Ok fen.

(** [text] occurs in [s]. *)
Definition names (s text : string) : Prop :=
  exists pre post, s = pre +:+ text +:+ post.

(** The part of a board [_board_to_fen] reads: the first eight cells of
    the first eight rows. *)
Definition crop8 (board : board_t) : board_t :=
  take 8 (fmap (M := list) (take 8) board).

(** The part of an image [get_position_fen] cuts squares from: the first
    [8 * (height // 8)] rows and columns. *)
Definition crop_image (image : ndarray) : ndarray :=
  let side := (8 * (height image / 8))%nat in
  slice2 image 0 side 0 side.

(** The board has at least eight rows and each of the first eight has at
    least eight cells. *)
Definition covers8 (board : board_t) : Prop :=
  (8 <= length board)%nat /\
  Forall (fun brow : list string => (8 <= length brow)%nat) (take 8 board).

(** A board of blanks, and one of black pawns, as notations. *)
Definition empty_fen : string := "8/8/8/8/8/8/8/8 w KQkq - 0 1".
Definition black_pawns_fen : string :=
  "pppppppp/pppppppp/pppppppp/pppppppp/pppppppp/pppppppp/pppppppp/pppppppp w KQkq - 0 1".

End FenNotation.

(* ================================================================== *)
(** * Sample collaborators, used to run the code on concrete inputs      *)
(* ================================================================== *)

Module Samples.
Import Float64 BoardDetector FenNotation Chess StockfishEngine ChessAnalyzer.

(** ** A small stand-in for python-chess *)

Definition file_of (c : ascii) : option Z :=
  let n := Z.of_nat (nat_of_ascii c) in
  if (97 <=? n) && (n <=? 104) then Some (n - 97) else None.

Definition rank_of (c : ascii) : option Z :=
  let n := Z.of_nat (nat_of_ascii c) in
  if (49 <=? n) && (n <=? 56) then Some (n - 49) else None.

Definition square_of (f r : ascii) : option Z :=
  x ← file_of f; y ← rank_of r; Some (y * 8 + x).

Definition promotion_of (c : ascii) : option Z :=
  if Ascii.eqb c "q" then Some QUEEN
  else if Ascii.eqb c "r" then Some ROOK
  else if Ascii.eqb c "b" then Some BISHOP
  else if Ascii.eqb c "n" then Some KNIGHT
  else None.

Definition mini_move : Type := Z * Z * option Z.

Definition mini_from_uci (s : string) : res mini_move :=
  let bad := Raise ("invalid uci: '" +:+ s +:+ "'") in
  match s with
  | String f1 (String r1 (String f2 (String r2 rest))) =>
      match square_of f1 r1, square_of f2 r2 with
      | Some a, Some b =>
          match rest with
          | EmptyString => Ok (a, b, None)
          | String p EmptyString =>
              match promotion_of p with
              | Some pt => Ok (a, b, Some pt)
              | None => bad
              end
          | _ => bad
          end
      | _, _ => bad
      end
  | _ => bad
  end.

Definition mini_square_name (sq : Z) : string :=
  String (ascii_of_nat (Z.to_nat (97 + sq mod 8)))
    (String (ascii_of_nat (Z.to_nat (49 + sq / 8))) EmptyString).

Definition mini_uci (m : mini_move) : string :=
  let '(a, b, p) := m in
  mini_square_name a +:+ mini_square_name b +:+
  match p with
  | Some pt => if pt =? QUEEN then "q" else if pt =? ROOK then "r"
               else if pt =? BISHOP then "b" else "n"
  | None => ""
  end.

Definition mini_Board (fen : string) : res board_t :=
  match decode_placement (placement_field fen) with
  | Some g =>
      if (length g =? 8)%nat && forallb (fun r => (length r =? 8)%nat) g
      then Ok g
      else Raise ("expected 8 rows of 8 squares in fen: '" +:+ fen +:+ "'")
  | None => Raise ("invalid character in fen: '" +:+ fen +:+ "'")
  end.

Definition piece_of_symbol (c : string) : option Piece :=
  let mk t w := Some {| piece_type := t; color := w |} in
  if String.eqb c "P" then mk PAWN true else if String.eqb c "p" then mk PAWN false
  else if String.eqb c "N" then mk KNIGHT true else if String.eqb c "n" then mk KNIGHT false
  else if String.eqb c "B" then mk BISHOP true else if String.eqb c "b" then mk BISHOP false
  else if String.eqb c "R" then mk ROOK true else if String.eqb c "r" then mk ROOK false
  else if String.eqb c "Q" then mk QUEEN true else if String.eqb c "q" then mk QUEEN false
  else if String.eqb c "K" then mk KING true else if String.eqb c "k" then mk KING false
  else None.

Definition mini_cell (g : board_t) (sq : Z) : string :=
  default " " (brow ← g !! Z.to_nat (7 - sq / 8); brow !! Z.to_nat (sq mod 8)).

Definition mini_piece_at (g : board_t) (sq : Z) : option Piece :=
  piece_of_symbol (mini_cell g sq).

Definition mini_set (g : board_t) (sq : Z) (c : string) : board_t :=
  setitem2 g (Z.to_nat (7 - sq / 8)) (Z.to_nat (sq mod 8)) c.

Definition mini_push (g : board_t) (m : mini_move) : board_t :=
  let '(a, b, _) := m in
  mini_set (mini_set g b (mini_cell g a)) a " ".

(** Checks are not computed by this stand-in. *)
#[local] Instance mini_chess : ChessLib := {|
  Board := board_t;
  Move := mini_move;
  chess_Board := mini_Board;
  from_uci := mini_from_uci;
  uci := mini_uci;
  from_square := fun m => m.1.1;
  to_square := fun m => m.1.2;
  promotion := fun m => m.2;
  piece_at := mini_piece_at;
  is_capture := fun g m => bool_decide (is_Some (mini_piece_at g m.1.2));
  is_castling := fun g m =>
    bool_decide (piece_type <$> mini_piece_at g m.1.1 = Some KING) &&
    (Z.abs (m.1.1 mod 8 - m.1.2 mod 8) =? 2);
  push := mini_push;
  is_check := fun _ => false;
  is_checkmate := fun _ => false;
  square_name := mini_square_name;
  square_file := fun sq => sq mod 8
|}.

(** ** A stand-in for OpenCV

    The luminance is the integer mean of the channels, the binary image is
    the image itself, and the contour finder reports two fixed outlines:
    a large triangle and a 10x10 square.  The polygon approximation keeps
    every vertex and the area is that of the bounding box.  The text of
    an error names the function that raises it. *)

Definition triangle : contour := [(0, 0); (600, 0); (0, 600)].
Definition small_square : contour := [(5, 5); (15, 5); (15, 15); (5, 15)].
Definition large_square : contour :=
  [(10, 10); (410, 12); (412, 410); (8, 408)].

Definition bounding_area (c : contour) : float :=
  let xs := map fst c in
  let ys := map snd c in
  of_Z ((foldr Z.max 0 xs - foldr Z.min (foldr Z.max 0 xs) xs) *
        (foldr Z.max 0 ys - foldr Z.min (foldr Z.max 0 ys) ys)).

Definition sample_cv (contours : list contour) : OpenCV := {|
  bgr2gray := fun '(b, g, r) => (b + g + r) / 3;
  adaptiveThreshold := fun gray => gray;
  cv2_error := fun name =>
    "OpenCV: error: (-215:Assertion failed) in function '" +:+ name +:+ "'";
  findContours := fun _ => contours;
  arcLength := fun c => of_Z (Z.of_nat (length c));
  approxPolyDP := fun c _ => c;
  contourArea := bounding_area;
  matrix := list point * list point;
  getPerspectiveTransform := fun src dst => (src, dst);
  warpPerspective := fun image _ size =>
    Gray (replicate (Z.to_nat size.2) (replicate (Z.to_nat size.1) 128))
|}.

(** A screenshot without a board, and one with a board outline. *)
Definition no_board_cv : OpenCV := sample_cv [triangle; small_square].
Definition board_cv : OpenCV := sample_cv [triangle; large_square].

Definition blank_image : ndarray := Gray (replicate 16 (replicate 16 128)).

(** A rectified board of 208x208 pixels, 26 to the square: the top-left
    square is bright, the other 63 are mid-gray. *)
Definition top_left_bright : ndarray :=
  Gray (replicate 26 (replicate 26 255 ++ replicate 182 128) ++
        replicate 182 (replicate 208 128))%list.

(** A rectified board of 208x208 pixels, all mid-gray. *)
Definition mid_gray_board : ndarray := Gray (replicate 208 (replicate 208 128)).

(** A grayscale image of 5x300 pixels: fewer than eight rows. *)
Definition sliver : ndarray := Gray (replicate 5 (replicate 300 200)).

(** A board of 210x215 pixels: 26 to the square, with two spare rows and
    seven spare columns. *)
Definition ragged_board : ndarray :=
  Gray (replicate 26 (replicate 26 255 ++ replicate 189 128) ++
        replicate 184 (replicate 215 128))%list.

(** A square of 26x26 pixels, all of luminance 90. *)
Definition square_90 : ndarray := Gray (replicate 26 (replicate 26 90)).

(** ** Scripted engines *)

(** An engine that always starts, numbers its processes by the length of
    the history, and answers every search with [info] and [result]. *)
Definition scripted (info : InfoDict) (result : PlayResult) : Engine := {|
  popen_uci := fun history _ => Ok (length history);
  configure := fun _ _ => Ok ();
  analyse := fun _ _ _ _ => Ok info;
  play := fun _ _ _ _ => Ok result;
  engine_quit := fun _ _ => Ok ()
|}.

Definition e2e4 : mini_move := (12, 28, None).
Definition e7e5 : mini_move := (52, 36, None).

Definition cp_score (c : Z) : PovScore :=
  {| relative := Cp c; turn := WHITE |}.
Definition mate_score (m : Z) : PovScore :=
  {| relative := Mate m; turn := WHITE |}.

Definition info_of (pv : list mini_move) (s : PovScore) : InfoDict :=
  {| info_pv := Some pv; info_score := Some s; info_depth := Some 18 |}.

(** An [info] dictionary without the key ['score']. *)
Definition info_without_score (pv : list mini_move) : InfoDict :=
  {| info_pv := Some pv; info_score := None; info_depth := Some 18 |}.

(** The search reports the line e2e4 e7e5 with a score of 35
    centipawns and plays e2e4. *)
Definition steady_engine : Engine :=
  scripted (info_of [e2e4; e7e5] (cp_score 35)) {| move := Some e2e4 |}.

(** An engine that reports the line e2e4 e7e5 without a score and
    plays e2e4. *)
Definition quiet_engine : Engine :=
  scripted (info_without_score [e2e4; e7e5]) {| move := Some e2e4 |}.


(** The side to move is mated in three. *)
Definition mated_engine : Engine :=
  scripted (info_of [e2e4] (mate_score (-3))) {| move := Some e2e4 |}.

(** [time_limit = 2.0] *)
Definition two_seconds : float := of_Z 2.

Definition stockfish_bin : string := "stockfish".

(** A freshly constructed session and analyzer. *)
Definition session0 (w : Engine) : StockfishEngine.StockfishEngine :=
  StockfishEngine.__init__ w stockfish_bin.

Definition analyzer0 (w : Engine) : ChessAnalyzer.ChessAnalyzer :=
  ChessAnalyzer.__init__ w stockfish_bin.

(** A classifier that raises on every square. *)
Definition broken_classifier : classifier :=
  fun _ => Raise "classifier failed".

(** An engine whose binary cannot be run. *)
Definition unstartable_engine : Engine := {|
  popen_uci := fun _ path =>
    Raise ("[Errno 2] No such file or directory: '" +:+ path +:+ "'");
  configure := configure steady_engine;
  analyse := analyse steady_engine;
  play := play steady_engine;
  engine_quit := engine_quit steady_engine
|}.

(** An engine whose process does not answer to [quit]. *)
Definition stubborn_engine : Engine := {|
  popen_uci := popen_uci steady_engine;
  configure := configure steady_engine;
  analyse := analyse steady_engine;
  play := play steady_engine;
  engine_quit := fun _ _ => Raise "engine process died unexpectedly"
|}.

(** The board the stand-in for OpenCV cuts out along [large_square]:
    404x404 pixels, all mid-gray. *)
Definition rectified_board : ndarray :=
  Gray (replicate 404 (replicate 404 128)).

(** The board without pieces, as the stand-in for python-chess reads
    it. *)
Definition empty_grid : board_t := replicate 8 (replicate 8 " ").

(** An overlay widget whose worker has just been started. *)
Definition widget0 (w : Engine) : OverlayApp.ChessOverlayWidget := {|
  OverlayApp.analyzer := analyzer0 w;
  OverlayApp.board_detector := BoardDetector.__init__;
  OverlayApp.analyzing := true;
  OverlayApp.status_text := "Taking screenshot...";
  OverlayApp.best_move_start := PyNone;
  OverlayApp.best_move_end := PyNone
|}.

End Samples.

(* ================================================================== *)
(** * Properties of the serialisation                                    *)
(* ================================================================== *)

Section StringFacts.

Lemma str_app_cons (a : ascii) (s t : string) :
  String a s +:+ t = String a (s +:+ t).
Proof. reflexivity. Qed.

Lemma str_app_nil_l (s : string) : "" +:+ s = s.
Proof. reflexivity. Qed.

Lemma str_app_nil_r (s : string) : s +:+ "" = s.
Proof. induction s as [|a s IH]; [done | by rewrite str_app_cons, IH]. Qed.

Lemma str_app_assoc (s t u : string) : (s +:+ t) +:+ u = s +:+ t +:+ u.
Proof. induction s as [|a s IH]; [done | by rewrite !str_app_cons, IH]. Qed.

End StringFacts.

Section BoardToFen.
Import BoardDetector FenNotation.

(** ** Writing the board out *)

Lemma getitem_Some {A} (l : list A) (i : nat) (x : A) :
  l !! i = Some x -> getitem l i = Ok x.
Proof. unfold getitem. by intros ->. Qed.

Lemma bind_Ok {A B} (a : A) (k : A -> res B) : (Ok a ≫= k) = k a.
Proof. reflexivity. Qed.

(** The inner loop over the columns of one rank is a fold of [fen_cell]. *)
Lemma for_cols_fold (board : board_t) (row : nat) (brow : list string) :
  board !! row = Some brow ->
  forall (r pre : list string) (st : nat * string),
    brow = (pre ++ r)%list ->
    for_in (seq (length pre) (length r))
      (fun col st =>
         brow ← getitem board row;
         cell ← getitem brow col;
         Ok (fen_cell cell st)) st
    = Ok (foldl (fun st c => fen_cell c st) st r).
Proof.
  intros Hrow r. rewrite (getitem_Some _ _ _ Hrow).
  induction r as [|c r IH]; intros pre st Hb; [done|].
  cbn [length seq for_in foldl]. rewrite bind_Ok.
  rewrite (getitem_Some brow (length pre) c), !bind_Ok
    by (rewrite Hb; by apply list_lookup_middle).
  specialize (IH (pre ++ [c])%list (fen_cell c st)).
  rewrite length_app in IH. cbn [length] in IH.
  replace (length pre + 1)%nat with (S (length pre)) in IH by lia.
  apply IH. rewrite Hb. by rewrite <- app_assoc.
Qed.

Lemma fen_cell_flush (c : string) (e : nat) (f : string) :
  fen_cell c (e, f) =
  if String.eqb c " " then (S e, f) else (0%nat, (f +:+ flush e) +:+ c).
Proof.
  unfold fen_cell, flush.
  destruct (String.eqb c " "), (0 <? e)%nat; by rewrite ?str_app_nil_r.
Qed.

Lemma fold_cells_flush (r : list string) :
  forall (e : nat) (f : string),
    (foldl (fun st c => fen_cell c st) (e, f) r).2 +:+
    flush (foldl (fun st c => fen_cell c st) (e, f) r).1
    = f +:+ encode_cells r e.
Proof.
  induction r as [|c r IH]; intros e f; [done|].
  cbn [foldl encode_cells]. rewrite fen_cell_flush.
  destruct (String.eqb c " "); [apply IH|].
  rewrite IH. fold (flush e). by rewrite !str_app_assoc.
Qed.

Lemma board_to_fen_row_step (board : board_t) :
  _board_to_fen board =
  (fen ← for_in (range 8) (row_step board) "";
   Ok (fen +:+ " w KQkq - 0 1")).
Proof. reflexivity. Qed.

(** One turn of the outer loop: the rank is appended, then the
    separator. *)
Lemma row_step_encode (board : board_t) (row : nat) (brow : list string)
    (fen : string) :
  board !! row = Some brow ->
  length brow = 8%nat ->
  row_step board row fen
  = Ok (fen +:+ encode_cells brow 0 +:+
        (if (row <? 7)%nat then "/" else "")).
Proof.
  intros Hrow Hlen. unfold row_step.
  pose proof (for_cols_fold board row brow Hrow brow [] (0%nat, fen) eq_refl)
    as Hfold.
  rewrite Hlen in Hfold. cbn [length] in Hfold.
  unfold range. rewrite Hfold, bind_Ok.
  pose proof (fold_cells_flush brow 0 fen) as Hfl.
  destruct (foldl _ _ brow) as [e f]. cbn [fst snd] in Hfl.
  f_equal. rewrite <- str_app_assoc, <- Hfl. unfold flush.
  destruct (0 <? e)%nat, (row <? 7)%nat; by rewrite ?str_app_nil_r.
Qed.

(** [_board_to_fen] on eight rows of eight cells: the ranks joined by
    ["/"], then the suffix. *)
Lemma board_to_fen_encode_rows (board : board_t) :
  length board = 8%nat ->
  Forall (fun brow => length brow = 8%nat) board ->
  _board_to_fen board = Ok (encode_rows board +:+ " w KQkq - 0 1").
Proof.
  intros Hlen Hrows.
  do 9 (destruct board as [|? board]; try discriminate Hlen).
  repeat match goal with
         | H : Forall _ (_ :: _) |- _ => apply Forall_cons_1 in H as [? H]
         end.
  rewrite board_to_fen_row_step. unfold range. cbn [seq for_in].
  repeat (erewrite row_step_encode by (done || reflexivity); rewrite bind_Ok).
  cbn [Nat.ltb Nat.leb encode_rows].
  by rewrite bind_Ok, ?str_app_assoc, ?str_app_nil_r, str_app_nil_l.
Qed.

(** ** Reading the placement back *)

Lemma decode_flush (e : nat) (s : string) (cur : list string) :
  (e <= 9)%nat ->
  decode_ranks (flush e +:+ s) cur
  = decode_ranks s (cur ++ replicate e " ")%list.
Proof.
  intros He.
  destruct e as [|e]; [cbn; by rewrite app_nil_r|].
  do 9 (destruct e as [|e]; [reflexivity|]). lia.
Qed.

Lemma replicate_snoc_app {A} (n : nat) (x : A) (l : list A) :
  (replicate (S n) x ++ l = replicate n x ++ x :: l)%list.
Proof. induction n as [|n IH]; [done|]. cbn in *. by rewrite <- IH. Qed.

Lemma decode_piece (c : string) (s : string) (cur : list string) :
  c ∈ piece_labels -> c <> " " ->
  decode_ranks (c +:+ s) cur = decode_ranks s (cur ++ [c])%list.
Proof.
  unfold piece_labels. rewrite !elem_of_cons, elem_of_nil.
  intros Hc Hsp. repeat (destruct Hc as [-> | Hc]; [done || reflexivity|]).
  done.
Qed.

(** A rank of at most nine squares is read back as written. *)
Lemma decode_encode_cells (r : list string) :
  forall (e : nat) (cur : list string) (rest : string),
    Forall (fun cell => cell ∈ piece_labels) r ->
    (e + length r <= 9)%nat ->
    decode_ranks (encode_cells r e +:+ rest) cur
    = decode_ranks rest (cur ++ replicate e " " ++ r)%list.
Proof.
  induction r as [|c r IH]; intros e cur rest Hlab Hlen.
  - cbn [encode_cells]. fold (flush e). rewrite decode_flush by (cbn in Hlen; lia).
    by rewrite app_nil_r.
  - apply Forall_cons_1 in Hlab as [Hc Hlab]. cbn [length] in Hlen.
    cbn [encode_cells]. destruct (String.eqb_spec c " ") as [-> | Hsp].
    + rewrite IH by (done || lia). by rewrite replicate_snoc_app.
    + fold (flush e). rewrite !str_app_assoc, decode_flush by lia.
      rewrite decode_piece by done.
      rewrite (IH 0%nat) by (done || lia). cbn [replicate].
      by rewrite <- !app_assoc.
Qed.

Lemma decode_encode_rows (rows : list (list string)) :
  rows <> [] -> Forall rank_ok rows ->
  decode_ranks (encode_rows rows) [] = Some rows.
Proof.
  induction rows as [|r rows IH]; [done|]. intros _ Hok.
  apply Forall_cons_1 in Hok as [[Hlen Hlab] Hok].
  destruct rows as [|r' rows].
  - cbn [encode_rows]. rewrite <- (str_app_nil_r (encode_cells r 0)).
    rewrite decode_encode_cells by (done || lia). done.
  - change (encode_rows (r :: r' :: rows))
      with (encode_cells r 0 +:+ "/" +:+ encode_rows (r' :: rows)).
    rewrite decode_encode_cells by (done || lia).
    change (decode_ranks ("/" +:+ ?s) ?cur)
      with (ranks ← decode_ranks s []; Some (cur :: ranks)).
    by rewrite IH.
Qed.

(** What the decoder accepts holds no space, and one more rank than
    separators. *)
Lemma decode_placement_field (s : string) :
  forall (cur : list string) (g : list (list string)) (t : string),
    decode_ranks s cur = Some g ->
    placement_field (s +:+ " " +:+ t) = s.
Proof.
  induction s as [|c s IH]; intros cur g t Hdec; [done|].
  rewrite str_app_cons. cbn [placement_field decode_ranks] in *.
  destruct (Ascii.eqb_spec c " ") as [-> | Hc]; [discriminate Hdec|].
  f_equal.
  destruct (Ascii.eqb c "/").
  - destruct (decode_ranks s []) eqn:Hs; [|discriminate Hdec]. by eapply IH.
  - destruct (Ascii.is_nat c); [by eapply IH|].
    destruct (is_letter c); [by eapply IH | discriminate Hdec].
Qed.

Lemma decode_count_slash (s : string) :
  forall (cur : list string) (g : list (list string)),
    decode_ranks s cur = Some g ->
    S (count_char "/" s) = length g.
Proof.
  induction s as [|c s IH]; intros cur g Hdec.
  - by injection Hdec as <-.
  - cbn [count_char decode_ranks] in *. destruct (Ascii.eqb c "/").
    + destruct (decode_ranks s []) eqn:Hs; [|discriminate Hdec].
      injection Hdec as <-. cbn [length]. f_equal. by eapply IH.
    + destruct (Ascii.is_nat c); [by eapply IH|].
      destruct (is_letter c); [by eapply IH | discriminate Hdec].
Qed.

(** C2. For every 8x8 grid of piece labels, [_board_to_fen] returns a
    notation whose placement field holds exactly seven ["/"] and decodes
    (a digit to that many empty squares, a letter to a piece) to the grid
    that was encoded. *)
Theorem board_to_fen_roundtrip (board : board_t) :
  grid8 board ->
  exists fen,
    _board_to_fen board = Ok fen /\
    count_char "/" (placement_field fen) = 7%nat /\
    decode_placement (placement_field fen) = Some board.
Proof.
  intros [Hlen Hok].
  assert (Hdec : decode_ranks (encode_rows board) [] = Some board).
  { apply decode_encode_rows; [|done]. by destruct board. }
  exists (encode_rows board +:+ " w KQkq - 0 1"). split.
  - apply board_to_fen_encode_rows; [done|].
    eapply Forall_impl; [exact Hok|]. by intros r [? _].
  - change (encode_rows board +:+ " w KQkq - 0 1")
      with (encode_rows board +:+ " " +:+ "w KQkq - 0 1").
    rewrite (decode_placement_field _ _ _ _ Hdec). split; [|exact Hdec].
    apply decode_count_slash in Hdec. lia.
Qed.

Lemma initial_grid_ok : grid8 initial_grid.
Proof.
  split; [reflexivity|].
  repeat (apply Forall_cons; split;
          [split; [reflexivity | repeat (apply Forall_cons; split;
             [unfold piece_labels; set_solver|]); constructor]|]).
  constructor.
Qed.

Lemma board_to_fen_roundtrip_witness :
  grid8 initial_grid /\
  exists fen,
    _board_to_fen initial_grid = Ok fen /\
    count_char "/" (placement_field fen) = 7%nat /\
    decode_placement (placement_field fen) = Some initial_grid.
Proof.
  split; [exact initial_grid_ok|].
  apply (board_to_fen_roundtrip initial_grid). exact initial_grid_ok.
Defined.

End BoardToFen.

(* ================================================================== *)
(** * Properties of the position encoder                                 *)
(* ================================================================== *)

Section Encoder.
Import BoardDetector FenNotation.

Lemma position_fen_try_loops (classify : classifier) (image : ndarray) :
  position_fen_try classify (Some image) =
  (board ← for_in (range 8) (fun row board =>
      for_in (range 8) (classify_cell classify image row) board)
      (replicate 8 (replicate 8 " "));
   _board_to_fen board).
Proof. reflexivity. Qed.

Lemma insert_after_alter {A} (f : A -> A) (l : list A) (i : nat) (x : A) :
  <[i := x]> (alter f i l) = <[i := x]> l.
Proof.
  rewrite !list_insert_alter, list_alter_alter_eq. by apply list_alter_ext.
Qed.

Lemma classify_cell_ok (classify : classifier) (image : ndarray)
    (row col : nat) (board : board_t) (piece : option string) :
  classify (square_at image row col) = Ok piece ->
  classify_cell classify image row col board
  = Ok (if truthy piece
        then setitem2 board (7 - row) col (default "" piece)
        else board).
Proof. unfold classify_cell. by intros ->. Qed.

(** The inner loop from column [k] on, when the row under construction
    holds the labels of the columns before [k] and is blank after. *)
Lemma fill_row_from (classify : classifier) (image : ndarray) (r : nat) :
  (forall col, (col < 8)%nat ->
     exists piece, classify (square_at image r col) = Ok piece) ->
  forall (n k : nat) (board : board_t),
    (k + n = 8)%nat ->
    board !! (7 - r)%nat
    = Some (map (cell_label classify image r) (seq 0 k) ++ replicate n " ")%list ->
    for_in (seq k n) (classify_cell classify image r) board
    = Ok (<[(7 - r)%nat := map (cell_label classify image r) (seq 0 8)]> board).
Proof.
  intros Hok n. induction n as [|n IH]; intros k board Hk Hrow.
  - replace k with 8%nat in Hrow by lia. rewrite app_nil_r in Hrow.
    change (seq k 0) with (@nil nat). cbn [for_in].
    f_equal. symmetry. by apply list_insert_id.
  - change (seq k (S n)) with (k :: seq (S k) n). cbn [for_in].
    destruct (Hok k ltac:(lia)) as [piece Hpiece].
    rewrite (classify_cell_ok _ _ _ _ _ _ Hpiece), bind_Ok.
    assert (Hlab : cell_label classify image r k = label_of piece)
      by (unfold cell_label; by rewrite Hpiece).
    assert (Hlen : length (map (cell_label classify image r) (seq 0 k)) = k)
      by (by rewrite length_map, length_seq).
    assert (Hnext : (map (cell_label classify image r) (seq 0 (S k))
                     = map (cell_label classify image r) (seq 0 k)
                       ++ [label_of piece])%list)
      by (by rewrite seq_S, map_app, <- Hlab).
    unfold label_of in Hnext. destruct (truthy piece).
    + rewrite (IH (S k)); [f_equal; apply insert_after_alter | lia |].
      unfold setitem2. rewrite list_lookup_alter_eq, Hrow. cbn [fmap option_fmap option_map].
      f_equal. rewrite Hnext, <- app_assoc. cbn [replicate app].
      rewrite <- Hlen at 1. rewrite insert_app_r_alt by lia.
      by rewrite Nat.sub_diag.
    + rewrite (IH (S k)); [done | lia |].
      rewrite Hrow, Hnext, <- app_assoc. done.
Qed.

(** The inner loop writes the labels of image row [r] into board row
    [7 - r]. *)
Lemma fill_row (classify : classifier) (image : ndarray) (r : nat)
    (board : board_t) :
  answers classify image -> (r < 8)%nat ->
  board !! (7 - r)%nat = Some (replicate 8 " ") ->
  for_in (range 8) (classify_cell classify image r) board
  = Ok (<[(7 - r)%nat := map (cell_label classify image r) (seq 0 8)]> board).
Proof.
  intros Hok Hr Hrow.
  apply (fill_row_from classify image r (fun col => Hok r col Hr) 8 0 board);
    done.
Qed.

(** When the classifier answers on every square, the board serialised is
    the grid of labels with its rows reversed: image row [row] is board
    row [7 - row]. *)
Lemma position_fen_try_board (classify : classifier) (image : ndarray) :
  answers classify image ->
  position_fen_try classify (Some image)
  = _board_to_fen (reverse (image_labels classify image)).
Proof.
  intros Hok. rewrite position_fen_try_loops.
  unfold range at 1. cbn [seq for_in].
  do 8 (rewrite (fill_row classify image) by (done || lia); rewrite bind_Ok).
  reflexivity.
Qed.

(** An exception of the loop body at one element is an exception of the
    loop. *)
Lemma for_in_raises {X S} (xs : list X) (body : X -> S -> res S) (x : X) :
  x ∈ xs ->
  (forall s, exists msg, body x s = Raise msg) ->
  forall s, exists msg, for_in xs body s = Raise msg.
Proof.
  intros Hx Hraise. induction xs as [|y xs IH]; intros s.
  - by apply elem_of_nil in Hx.
  - cbn [for_in]. apply elem_of_cons in Hx as [<- | Hx].
    + destruct (Hraise s) as [msg ->]. by exists msg.
    + destruct (body y s) as [s'|msg]; [|by exists msg].
      rewrite bind_Ok. by apply IH.
Qed.

Lemma position_fen_try_raises (classify : classifier)
    (board_image : option ndarray) :
  internal_failure classify board_image ->
  exists msg, position_fen_try classify board_image = Raise msg.
Proof.
  intros [-> | (image & row & col & msg & -> & Hrow & Hcol & Hraise)].
  - by eexists.
  - rewrite position_fen_try_loops.
    destruct (for_in_raises (range 8)
                (fun row board =>
                   for_in (range 8) (classify_cell classify image row) board)
                row) with (s := replicate 8 (replicate 8 " "))
      as [msg' ->].
    + apply elem_of_seq. lia.
    + apply (for_in_raises (range 8) (classify_cell classify image row) col).
      * apply elem_of_seq. lia.
      * intros board. exists msg. unfold classify_cell. by rewrite Hraise.
    + by exists msg'.
Qed.

(** The ranks of a board of blanks and pawns never start with ["r"]. *)
Lemma encode_cells_head (r : list string) :
  forall e : nat,
    Forall (fun cell => cell ∈ [" "; "P"; "p"]) r ->
    (0 < e + length r <= 9)%nat ->
    exists a s, encode_cells r e = String a s /\ a <> "r"%char.
Proof.
  assert (Hdigit : forall e, (0 < e <= 9)%nat ->
            exists a s, str_of_nat e = String a s /\ a <> "r"%char).
  { intros e He. do 10 (destruct e as [|e]; [by (lia || eauto)|]). lia. }
  induction r as [|c r IH]; intros e Hlab Hlen; cbn [length] in Hlen.
  - cbn [encode_cells]. destruct e; [lia|]. apply Hdigit. lia.
  - apply Forall_cons_1 in Hlab as [Hc Hlab]. cbn [encode_cells].
    rewrite !elem_of_cons, elem_of_nil in Hc.
    destruct Hc as [-> | [-> | [-> | []]]]; cbn [String.eqb Ascii.eqb Bool.eqb].
    + apply IH; [done | lia].
    + destruct e; [by eauto|].
      destruct (Hdigit (S e) ltac:(lia)) as (a & s & -> & Ha).
      exists a. eexists. by split.
    + destruct e; [by eauto|].
      destruct (Hdigit (S e) ltac:(lia)) as (a & s & -> & Ha).
      exists a. eexists. by split.
Qed.

(** What the class's own classifier leaves on a square is a blank or a
    pawn. *)
Lemma reference_labels `{cv : OpenCV} (image : ndarray) (row col : nat) :
  cell_label own_classifier image row col ∈ [" "; "P"; "p"].
Proof.
  unfold cell_label, own_classifier, _detect_piece_on_square.
  destruct (gray_of (square_at image row col)) as [gray|msg];
    [|cbn; set_solver].
  rewrite !bind_Ok. unfold label_of, truthy. cbn [default].
  repeat match goal with
         | |- context [if ?b then _ else _] => destruct b
         end; cbn; set_solver.
Qed.

(** When the encoding returns, the classifier has answered on every
    square. *)
Lemma position_fen_try_answers (classify : classifier) (image : ndarray)
    (fen : string) :
  position_fen_try classify (Some image) = Ok fen -> answers classify image.
Proof.
  intros Hok row col Hrow Hcol.
  destruct (classify (square_at image row col)) as [piece|msg] eqn:Hsq;
    [by eexists|].
  destruct (position_fen_try_raises classify (Some image)) as [msg' Hraise].
  - right. by exists image, row, col, msg.
  - rewrite Hraise in Hok. discriminate Hok.
Qed.

(** The rows of the grid of labels have eight cells. *)
Lemma image_labels_rows (classify : classifier) (image : ndarray) :
  Forall (fun brow : list string => length brow = 8%nat)
    (reverse (image_labels classify image)).
Proof.
  unfold image_labels. cbn [seq map reverse rev_append].
  repeat (apply Forall_cons; split; [reflexivity|]). constructor.
Qed.

(** With the class's own classifier, when the encoding of an image
    returns, its first rank starts with a count or a pawn: the notation
    is not the fallback notation. *)
Lemma reference_success_not_fallback `{cv : OpenCV} (image : ndarray)
    (fen : string) :
  position_fen_try own_classifier (Some image) = Ok fen ->
  fen <> starting_fen.
Proof.
  intros Htry. pose proof (position_fen_try_answers _ _ _ Htry) as Hok.
  rewrite (position_fen_try_board _ image Hok) in Htry.
  rewrite board_to_fen_encode_rows in Htry;
    [|done | apply image_labels_rows].
  pose proof (f_equal (fun r => match r with
                                  | Ok x => x
                                  | Raise _ => fen
                                  end) Htry) as Hfen.
  cbv beta iota in Hfen. rewrite <- Hfen. clear Htry Hfen.
  set (cl := own_classifier).
  unfold image_labels. cbn [seq map reverse rev_append encode_rows].
  destruct (encode_cells_head
              [cell_label cl image 7 0; cell_label cl image 7 1;
               cell_label cl image 7 2; cell_label cl image 7 3;
               cell_label cl image 7 4; cell_label cl image 7 5;
               cell_label cl image 7 6; cell_label cl image 7 7] 0)
    as (a & s & -> & Ha).
  - repeat (apply Forall_cons; split; [apply reference_labels|]).
    constructor.
  - cbn. lia.
  - rewrite !str_app_cons. intros Heq. apply Ha.
    exact (f_equal (fun x => match x with
                             | String c _ => c
                             | EmptyString => "r"%char
                             end) Heq).
Qed.

(** C7. [get_position_fen] returns in every case.  When the encoder
    meets an internal failure (no image, or a classifier that raises on a
    square) it prints one error line and returns the standard
    initial-position notation; when the classifier answers on every
    square it prints nothing, so the printed line tells the two apart.
    With the class's own classifier a notation returned without an error
    line is moreover never the fallback notation. *)
Theorem get_position_fen_failure (classify : classifier)
    (board_image : option ndarray) :
  (internal_failure classify board_image ->
   exists msg,
     get_position_fen_with classify board_image
     = (["Error in position extraction: " +:+ msg],
        "rnbqkbnr/pppppppp/8/8/8/8/PPPPPPPP/RNBQKBNR w KQkq - 0 1")) /\
  (forall image,
     board_image = Some image -> answers classify image ->
     exists fen, get_position_fen_with classify board_image = ([], fen)) /\
  (forall (cv : OpenCV) board_image fen,
     @get_position_fen cv board_image = ([], fen) ->
     fen <> "rnbqkbnr/pppppppp/8/8/8/8/PPPPPPPP/RNBQKBNR w KQkq - 0 1").
Proof.
  split; [|split].
  - intros Hfail. destruct (position_fen_try_raises _ _ Hfail) as [msg Hmsg].
    exists msg. unfold get_position_fen_with. by rewrite Hmsg.
  - intros image -> Hok. unfold get_position_fen_with.
    rewrite (position_fen_try_board _ _ Hok).
    rewrite board_to_fen_encode_rows;
      [by eexists | done | apply image_labels_rows].
  - intros cv img fen Hfen.
    unfold get_position_fen, get_position_fen_with in Hfen.
    destruct (position_fen_try own_classifier img) as [fen'|msg] eqn:Htry.
    + injection Hfen as <-. destruct img as [image|]; [|discriminate Htry].
      exact (reference_success_not_fallback image fen' Htry).
    + intros _.
      exact (eq_ind 1%nat (fun n => match n with O => False | S _ => True end)
               I 0%nat (f_equal (fun r => length r.1) Hfen)).
Qed.

(** The ranks of the notation are the image rows from the bottom up:
    image row [row] is written as rank field [7 - row], counted from 0. *)
Lemma get_position_fen_rank_order (classify : classifier) (image : ndarray) :
  answers classify image ->
  get_position_fen_with classify (Some image)
  = ([], encode_rows (reverse (image_labels classify image))
         +:+ " w KQkq - 0 1").
Proof.
  intros Hok. unfold get_position_fen_with.
  rewrite (position_fen_try_board _ _ Hok).
  by rewrite board_to_fen_encode_rows; [| | apply image_labels_rows].
Qed.

End Encoder.

(* ================================================================== *)
(** * Properties of the detector and of the brightness classifier       *)
(* ================================================================== *)

Section DetectorFacts.
Import Float64 BoardDetector.
Context `{cv : OpenCV}.

(** Contours that do not pass the test are skipped. *)
Lemma first_board_none (self : ChessBoardDetector) (image : ndarray)
    (contours : list contour) :
  Forall (fun c => ~ passes self c) contours ->
  first_board self image contours = Ok None.
Proof.
  induction 1 as [|c rest Hc _ IH]; [done|].
  cbn [first_board]. cbv zeta.
  destruct (Nat.eqb_spec (length (approxPolyDP c (mul lit_0_02 (arcLength c))))
              4) as [H4 | H4]; [|exact IH].
  destruct (ltb _ (contourArea c)) eqn:Harea; [|exact IH].
  by destruct Hc.
Qed.

(** The conversion keeps the number of pixels. *)
Lemma no_pixels_gray_pixels (px : list (list (Z * Z * Z))) :
  no_pixels (gray_pixels px) = no_pixels px.
Proof.
  unfold no_pixels, gray_pixels. rewrite <- concat_map.
  by destruct (concat px).
Qed.

(** On an image with pixels the grayscale pixels are obtained. *)
Lemma gray_of_pixels (image : ndarray) :
  no_pixels (to_gray image) = false -> gray_of image = Ok (to_gray image).
Proof.
  destruct image as [px|px]; cbn [gray_of to_gray]; [done|].
  unfold cvtColor. rewrite no_pixels_gray_pixels. by intros ->.
Qed.

(** What [gray_of] returns, when it returns. *)
Lemma gray_of_inv (image : ndarray) (gray : list (list Z)) :
  gray_of image = Ok gray -> gray = to_gray image.
Proof.
  destruct image as [px|px]; cbn [gray_of to_gray]; [by intros [= <-]|].
  unfold cvtColor. destruct (no_pixels px); [done | by intros [= <-]].
Qed.

(** On an image with pixels both OpenCV calls on the image return, and
    [detect_board] is the loop over the contours found. *)
Lemma detect_board_pixels (self : ChessBoardDetector) (image : ndarray) :
  no_pixels (to_gray image) = false ->
  detect_board self image
  = first_board self image (findContours (adaptiveThreshold (to_gray image))).
Proof.
  intros Hpx. unfold detect_board. rewrite (gray_of_pixels _ Hpx), bind_Ok.
  unfold threshold. rewrite Hpx. by rewrite bind_Ok.
Qed.

(** On an image without pixels the first OpenCV call raises, and
    [detect_board], which has no [try], raises with it. *)
Lemma detect_board_no_pixels (self : ChessBoardDetector) (image : ndarray) :
  no_pixels (to_gray image) = true ->
  detect_board self image
  = Raise (cv2_error match image with
                     | Color _ => "cvtColor"
                     | Gray _ => "adaptiveThreshold"
                     end).
Proof.
  intros Hpx. unfold detect_board.
  destruct image as [px|px]; cbn [gray_of to_gray] in *.
  - rewrite bind_Ok. unfold threshold. by rewrite Hpx.
  - unfold cvtColor. rewrite no_pixels_gray_pixels in Hpx. by rewrite Hpx.
Qed.

(** C8 (as the code has it). On an image that has pixels, when no
    contour approximates to exactly four vertices with an area above the
    square of [min_board_size], [detect_board] returns [None]; it does
    not raise. *)
Theorem detect_board_not_found (self : ChessBoardDetector)
    (image : ndarray) :
  no_pixels (to_gray image) = false ->
  (forall c,
     c ∈ findContours (adaptiveThreshold (to_gray image)) ->
     ~ (length (approxPolyDP c (mul lit_0_02 (arcLength c))) = 4%nat /\
        ltb (of_Z (min_board_size self * min_board_size self))
            (contourArea c) = true)) ->
  detect_board self image = Ok None.
Proof.
  intros Hpx Hnone. rewrite (detect_board_pixels _ _ Hpx).
  apply first_board_none.
  apply Forall_forall. intros c Hc. exact (Hnone c Hc).
Qed.

(** Comparison of floats the other way round. *)
Lemma SFcompare_antisym (x y : float) :
  SFcompare y x = CompOpp <$> SFcompare x y.
Proof.
  destruct x as [[]|[]| |[] mx ex], y as [[]|[]| |[] my ey]; cbn; try done;
    rewrite (Z.compare_antisym ex ey);
    destruct (ex ?= ey); cbn; try done;
    change (Pos.compare_cont Eq my mx) with (Pos.compare my mx);
    change (Pos.compare_cont Eq mx my) with (Pos.compare mx my);
    rewrite (Pos.compare_antisym mx my); try done.
Qed.

Lemma leb_not_ltb (x y : float) : leb x y = true -> ltb y x = false.
Proof.
  unfold leb, ltb, SFleb, SFltb. rewrite (SFcompare_antisym x y).
  by destruct (SFcompare x y) as [[]|].
Qed.

(** Nothing is at most 90 and at least 170. *)
Lemma leb_90_not_170 (x : float) :
  leb x (of_Z 90) = true -> leb (of_Z 170) x = false.
Proof.
  change (of_Z 90) with (S754_finite false 6333186975989760 (-46)).
  change (of_Z 170) with (S754_finite false 5981343255101440 (-45)).
  unfold leb, SFleb, SFcompare.
  destruct x as [[]|[]| |[] m e]; cbv beta iota; try done.
  rewrite (Z.compare_antisym e (-45)).
  destruct (Z.compare_spec e (-46)) as [Heq | Hlt | Hgt];
    destruct (Z.compare_spec e (-45)) as [Heq' | Hlt' | Hgt'];
    cbv beta iota delta [CompOpp]; try done; lia.
Qed.

(** The mean of an array without pixels is not a number. *)
Lemma np_mean_no_pixels (gray : list (list Z)) :
  no_pixels gray = true -> np_mean gray = S754_nan.
Proof.
  unfold no_pixels, np_mean. by destruct (concat gray).
Qed.

(** A mean that compares with a number is the mean of an array with
    pixels. *)
Lemma compared_mean_has_pixels (gray : list (list Z)) (x : float) :
  ltb x (np_mean gray) = true \/ leb x (np_mean gray) = true \/
  leb (np_mean gray) x = true ->
  no_pixels gray = false.
Proof.
  destruct (no_pixels gray) eqn:Hpx; [|done].
  rewrite (np_mean_no_pixels _ Hpx). unfold ltb, leb, SFltb, SFleb.
  by destruct x as [[]|[]| |[] m e]; intros [H | [H | H]].
Qed.

(** The classifier on a square whose grayscale pixels are obtained. *)
Lemma detect_piece_pixels (square_img : ndarray) :
  no_pixels (to_gray square_img) = false ->
  _detect_piece_on_square square_img
  = let avg := np_mean (to_gray square_img) in
    Ok (if ltb (of_Z 90) avg && ltb avg (of_Z 170) then " "
        else if leb (of_Z 170) avg then "P" else "p").
Proof.
  intros Hpx. unfold _detect_piece_on_square.
  by rewrite (gray_of_pixels _ Hpx), bind_Ok.
Qed.

(** C9 (as the code has it). With [avg] the mean luminance of the square:
    the classifier answers empty when [90 < avg < 170], both bounds
    excluded; the white pawn when [avg >= 170]; the black pawn when
    [avg <= 90], 90 included. *)
Theorem detect_piece_thresholds (square_img : ndarray) :
  let avg := np_mean (to_gray square_img) in
  (ltb (of_Z 90) avg = true -> ltb avg (of_Z 170) = true ->
     _detect_piece_on_square square_img = Ok " ") /\
  (leb (of_Z 170) avg = true ->
     _detect_piece_on_square square_img = Ok "P") /\
  (leb avg (of_Z 90) = true ->
     _detect_piece_on_square square_img = Ok "p").
Proof.
  intros avg. split; [|split].
  - intros H90 H170.
    rewrite detect_piece_pixels
      by (apply (compared_mean_has_pixels _ (of_Z 90)); by left).
    cbv zeta. fold avg. by rewrite H90, H170.
  - intros H170.
    rewrite detect_piece_pixels
      by (apply (compared_mean_has_pixels _ (of_Z 170)); right; by left).
    cbv zeta. fold avg.
    rewrite (leb_not_ltb _ _ H170), andb_false_r. by rewrite H170.
  - intros H90.
    rewrite detect_piece_pixels
      by (apply (compared_mean_has_pixels _ (of_Z 90)); right; by right).
    cbv zeta. fold avg.
    rewrite (leb_not_ltb _ _ H90). cbn [andb].
    by rewrite (leb_90_not_170 _ H90).
Qed.

End DetectorFacts.

(* ================================================================== *)
(** * Properties of the two-decimal formatting                           *)
(* ================================================================== *)

Section FloatFacts.
Import Float64.

(** [rne_div] is within half a unit of the exact quotient. *)
Lemma rne_div_error (num den : Z) :
  0 < den -> 0 <= num ->
  2 * Z.abs (rne_div num den * den - num) <= den /\ 0 <= rne_div num den.
Proof.
  intros Hden Hnum. unfold rne_div.
  pose proof (Z.div_mod num den ltac:(lia)) as Hdm.
  pose proof (Z.mod_pos_bound num den Hden) as Hr.
  pose proof (Z.div_pos num den Hnum Hden) as Hq.
  destruct (Z.compare_spec (2 * (num mod den)) den) as [Heq | Hlt | Hgt];
    [destruct (Z.even (num / den))| |]; split; try lia; nia.
Qed.

(** An integer within less than half a unit of the quotient is the
    rounded quotient. *)
Lemma rne_div_unique (num den q : Z) :
  0 < den -> 2 * Z.abs (num - q * den) < den -> rne_div num den = q.
Proof.
  intros Hden Hnear. unfold rne_div.
  destruct (Z_le_gt_dec (q * den) num) as [Hle | Hgt].
  - assert (Hq : q = num / den)
      by (apply (Z.div_unique num den q (num - q * den)); lia).
    assert (Hr : num - q * den = num mod den)
      by (apply (Z.mod_unique num den q (num - q * den)); lia).
    rewrite <- Hq, <- Hr.
    destruct (Z.compare_spec (2 * (num - q * den)) den); lia.
  - assert (Hq : q - 1 = num / den)
      by (apply (Z.div_unique num den (q - 1) (num - (q - 1) * den)); lia).
    assert (Hr : num - (q - 1) * den = num mod den)
      by (apply (Z.mod_unique num den (q - 1) (num - (q - 1) * den)); lia).
    rewrite <- Hq, <- Hr.
    destruct (Z.compare_spec (2 * (num - (q - 1) * den)) den); lia.
Qed.

Lemma quot_log2_upper (n d : Z) : quot_log2 n d <= Z.log2 n - Z.log2 d.
Proof. unfold quot_log2. destruct (_ <=? _); lia. Qed.

(** Dividing a centipawn count below 2^52 by 100 and printing the float
    with two decimals gives the exact decimal expansion. *)
Lemma format_true_divide_exact (c : Z) :
  Z.abs c < 2 ^ 52 ->
  exists x, int_true_divide c 100 = Ok x /\
            format_2f x = hundredths (c <? 0) (Z.abs c).
Proof.
  intros Hc. unfold int_true_divide. cbn [Z.eqb].
  destruct (Z.eqb_spec c 0) as [-> | Hnz]; [by eexists|].
  set (n := Z.abs c). assert (Hn : 1 <= n < 2 ^ 52) by lia.
  change (Z.abs 100) with 100. change (100 <? 0) with false.
  rewrite xorb_false_r.
  set (e := Z.max (quot_log2 n 100 - 52) (3 - emax - prec)).
  assert (He : e <= -7).
  { pose proof (quot_log2_upper n 100) as Hu.
    assert (Z.log2 n < 52) by (apply Z.log2_lt_pow2; lia).
    change (Z.log2 100) with 6 in Hu. unfold e, emax, prec. lia. }
  rewrite (Z.max_l 0 e), (Z.max_r 0 (- e)) by lia.
  change (2 ^ 0) with 1. rewrite Z.mul_1_r.
  assert (Hpow : 128 <= 2 ^ (- e))
    by (change 128 with (2 ^ 7); apply Z.pow_le_mono_r; lia).
  destruct (rne_div_error (n * 2 ^ (- e)) 100) as [Herr Hm0]; [lia | nia |].
  set (m := rne_div (n * 2 ^ (- e)) 100) in *.
  assert (Hm : 1 <= m) by nia.
  assert (Hfinal : forall m' e', 1 <= m' -> e' < 0 ->
            2 * Z.abs (m' * 100 - n * 2 ^ (- e')) < 2 ^ (- e') ->
            exists x,
              (if m' =? 0 then Ok (S754_zero (c <? 0))
               else if emax - prec <? e'
                    then Raise "integer division result too large for a float"
                    else Ok (S754_finite (c <? 0) (Z.to_pos m') e')) = Ok x /\
              format_2f x = hundredths (c <? 0) n).
  { intros m' e' Hm' He' Hnear.
    destruct (Z.eqb_spec m' 0); [lia|].
    destruct (Z.ltb_spec (emax - prec) e'); [unfold emax, prec in *; lia|].
    eexists; split; [reflexivity|]. cbn [format_2f].
    destruct (Z.leb_spec 0 e'); [lia|].
    rewrite Z2Pos.id by lia. f_equal.
    apply rne_div_unique; [lia|]. done. }
  destruct (Z.eqb_spec m (2 ^ 53)) as [Hbig | Hsmall].
  - apply Hfinal; [lia | lia |].
    replace (- (e + 1)) with (- e - 1) by lia.
    assert (H2 : 2 ^ (- e) = 2 * 2 ^ (- e - 1)).
    { rewrite <- Z.pow_succ_r by lia. f_equal. lia. }
    assert (64 <= 2 ^ (- e - 1)) by lia.
    rewrite Hbig in Herr. rewrite H2 in Herr. lia.
  - apply Hfinal; lia.
Qed.

End FloatFacts.

(* ================================================================== *)
(** * Properties of the engine session                                   *)
(* ================================================================== *)

Section EngineSession.
Import Float64 Chess StockfishEngine.
Context `{lib : ChessLib}.
Variable w : Engine.


(** The score text of a [PovScore] is never computed: the attribute
    that is read first is missing. *)
Lemma score_text_raises (so : PovScore) :
  score_text so
  = Raise ("'PovScore' object has no attribute '" +:+
           (if is_mate so then "mate" else "cp") +:+ "'").
Proof. unfold score_text. by destruct (is_mate so). Qed.

(** C5 (as the code has it). For every analysis whose [info] carries a
    score, on a session that holds a handle and a position that parses,
    [get_best_move] returns no score at all: reading [mate] (when the
    engine reports a forced mate) or [cp] (otherwise) off the
    [PovScore] raises [AttributeError] inside the [try], after both
    engine calls were made, and the result is the error dictionary with
    that text. *)
Theorem get_best_move_score_raises (self : StockfishEngine) (h : handle)
    (fen : string) (depth : Z) (time_limit : float)
    (board : Board) (info : InfoDict) (result : PlayResult)
    (so : PovScore) :
  let limit := {| limit_depth := depth; limit_time := time_limit |} in
  let self' := ensure_engine w self in
  engine self' = Some h ->
  chess_Board fen = Ok board ->
  analyse w (trace self') h board limit = Ok info ->
  play w (trace self' ++ [Analyse h board limit]) h board limit = Ok result ->
  info_score info = Some so ->
  get_best_move w self fen depth time_limit
  = (error_dict ("Analysis error: 'PovScore' object has no attribute '" +:+
                 (if is_mate so then "mate" else "cp") +:+ "'"),
     set_engine self' (Some h)
       [Analyse h board limit; Play h board limit]).
Proof.
  intros limit self' Hh Hboard Hinfo Hplay Hso.
  unfold get_best_move. fold self'. rewrite Hh.
  unfold best_move_try. rewrite Hboard. fold limit. rewrite Hinfo.
  rewrite Hplay, Hso, score_text_raises. reflexivity.
Qed.


(** C3 (as the code has it). [quit] on a session that holds a handle
    releases it, and a second [quit] does nothing; but the next
    [get_best_move] on the closed session starts with a new [Popen], and
    when the process starts and is configured the session holds a handle
    again. *)
Theorem quit_then_reopen (self : StockfishEngine) (h : handle) :
  engine self = Some h ->
  engine_quit w (trace self) h = Ok () ->
  let closed := (quit w self).2 in
  engine closed = None /\
  trace closed = (trace self ++ [Quit h])%list /\
  quit w closed = (Ok (), closed) /\
  forall fen depth time_limit,
    let after := (get_best_move w closed fen depth time_limit).2 in
    (exists calls,
        trace after
        = (trace closed ++ Popen (stockfish_path self) :: calls)%list) /\
    (forall h',
        popen_uci w (trace closed) (stockfish_path self) = Ok h' ->
        configure w (trace closed ++ [Popen (stockfish_path self)]) h'
        = Ok () ->
        engine after = Some h').
Proof.
  intros Hh Hquit closed.
  assert (Hclosed : closed = set_engine self None [Quit h]).
  { unfold closed, quit. by rewrite Hh, Hquit. }
  rewrite Hclosed. cbn [engine trace set_engine].
  do 3 (split; [done|]).
  intros fen depth time_limit.
  set (c := set_engine self None [Quit h]) in *.
  assert (Hpath : stockfish_path c = stockfish_path self) by done.
  unfold get_best_move, ensure_engine.
  change (engine c) with (@None handle). cbn match.
  unfold _init_engine. rewrite Hpath.
  change (trace c) with (trace self ++ [Quit h])%list.
  split.
  - destruct (popen_uci w _ _) as [h'|msg]; [|by eexists].
    destruct (configure w _ h') as [[]|msg]; [|by eexists].
    cbn [engine set_engine].
    destruct (best_move_try _ _ _ _ _ _) as [[d|msg] calls];
      cbn [trace set_engine snd]; rewrite <- !app_assoc; by eexists.
  - intros h' -> ->. cbn [engine set_engine].
    by destruct (best_move_try _ _ _ _ _ _) as [[d|msg] calls].
Qed.

End EngineSession.

(* ================================================================== *)
(** * Properties of the analyzer                                         *)
(* ================================================================== *)

Section AnalyzerFacts.
Import Float64 FenNotation Chess StockfishEngine ChessAnalyzer.
Context `{lib : ChessLib}.
Variable w : Engine.

(** C4 (as the code has it). For every notation that [chess.Board]
    rejects, [analyze_position] returns the error dictionary and leaves
    the analyzer, its engine session and the session's trace of engine
    calls as they were. *)
Theorem analyze_position_invalid (self : ChessAnalyzer) (fen : string)
    (depth : Z) (time_limit : float) (msg : string) :
  chess_Board fen = Raise msg ->
  analyze_position w self fen depth time_limit
  = (error_dict "Invalid FEN string", self) /\
  trace (stockfish (analyze_position w self fen depth time_limit).2)
  = trace (stockfish self).
Proof. intros Hbad. unfold analyze_position. by rewrite Hbad. Qed.

(** C10 (as the code has it). [format_move_with_pieces] always returns a
    string.  For a move that is absent, empty or shorter than four
    characters it is the fixed text ["No move available"], which does not
    name the move; for a move of four characters or more, when the
    position or the move does not parse, it is ["Move "] followed by the
    raw move text. *)
Theorem format_move_fallback (self : ChessAnalyzer) (fen : string) :
  format_move_with_pieces self fen None = "No move available" /\
  (forall text, (String.length text < 4)%nat ->
     format_move_with_pieces self fen (Some text) = "No move available") /\
  (forall text msg, (4 <= String.length text)%nat ->
     chess_Board fen = Raise msg \/ from_uci text = Raise msg ->
     format_move_with_pieces self fen (Some text) = "Move " +:+ text /\
     names (format_move_with_pieces self fen (Some text)) text).
Proof.
  split; [done|]. split.
  - intros text Hlen. unfold format_move_with_pieces.
    destruct (Nat.ltb_spec (String.length text) 4); [|lia].
    by rewrite orb_true_r.
  - intros text msg Hlen Hbad.
    assert (Hres : format_move_with_pieces self fen (Some text)
                   = "Move " +:+ text).
    { unfold format_move_with_pieces.
      destruct (String.eqb_spec text "") as [-> | _]; [cbn in Hlen; lia|].
      destruct (Nat.ltb_spec (String.length text) 4); [lia|]. cbn [orb].
      unfold format_move_try.
      destruct Hbad as [-> | Huci]; [reflexivity|].
      destruct (chess_Board fen); [|reflexivity].
      rewrite bind_Ok, Huci. reflexivity. }
    split; [exact Hres|]. rewrite Hres. exists "Move ", "". by rewrite str_app_nil_r.
Qed.

End AnalyzerFacts.

(* ================================================================== *)
(** * Runs on concrete inputs                                            *)
(* ================================================================== *)

Section Runs.
Import Float64 BoardDetector FenNotation Chess StockfishEngine ChessAnalyzer.
Import Samples.
#[local] Existing Instance mini_chess.

(** C1, on a concrete board image.  The classifier sees a white pawn in
    the top-left square (image row 0) and the encoder stores it at
    [board[7][0]]; the serialisation writes [board[0]] first, so the pawn
    comes out in the last rank field, where the notation has rank 1, and
    not in the first, where it has rank 8. *)
Theorem top_row_lands_in_last_rank :
  let classify : classifier := @own_classifier no_board_cv in
  cell_label classify top_left_bright 0 0 = "P" /\
  (reverse (image_labels classify top_left_bright) !! 7%nat
   ≫= fun brow => brow !! 0%nat) = Some "P" /\
  @get_position_fen no_board_cv (Some top_left_bright)
  = ([], "8/8/8/8/8/8/8/P7 w KQkq - 0 1").
Proof. vm_compute. repeat split. Qed.

Lemma get_position_fen_failure_witness :
  get_position_fen_with broken_classifier (Some top_left_bright)
  = (["Error in position extraction: classifier failed"], starting_fen) /\
  @get_position_fen no_board_cv None
  = (["Error in position extraction: 'NoneType' object has no attribute 'shape'"],
     starting_fen) /\
  exists fen, @get_position_fen no_board_cv (Some top_left_bright) = ([], fen).
Proof.
  split; [|split].
  - destruct (proj1 (get_position_fen_failure broken_classifier
                       (Some top_left_bright))) as [msg Hmsg].
    + right. exists top_left_bright, 0%nat, 0%nat, "classifier failed".
      repeat split; lia.
    + rewrite Hmsg. vm_compute in Hmsg. by injection Hmsg as <-.
  - reflexivity.
  - apply (proj1 (proj2 (get_position_fen_failure
                    (@own_classifier no_board_cv)
                    (Some top_left_bright))) top_left_bright eq_refl).
    intros row col _ _. by eexists.
Defined.

Lemma detect_board_not_found_witness :
  @detect_board no_board_cv BoardDetector.__init__ blank_image = Ok None.
Proof.
  apply (@detect_board_not_found no_board_cv); [reflexivity|].
  intros c Hc [Hlen Harea].
  cbn in Hc. apply elem_of_cons in Hc as [-> | Hc]; [discriminate Hlen|].
  apply elem_of_cons in Hc as [-> | Hc]; [discriminate Harea|].
  by apply elem_of_nil in Hc.
Defined.

(** C8, as stated, fails: on an image without pixels no contour
    qualifies, yet [detect_board] raises, since [cv2.adaptiveThreshold]
    raises on such an image and the call is not in a [try]. *)
Lemma detect_board_raises_without_pixels :
  let image := Gray [] in
  (forall c,
     c ∈ @findContours no_board_cv
           (@adaptiveThreshold no_board_cv (@to_gray no_board_cv image)) ->
     ~ @passes no_board_cv BoardDetector.__init__ c) /\
  @detect_board no_board_cv BoardDetector.__init__ image
  = Raise (@cv2_error no_board_cv "adaptiveThreshold") /\
  @detect_board no_board_cv BoardDetector.__init__ image <> Ok None.
Proof.
  intros image. split; [|split; [reflexivity | discriminate]].
  intros c Hc [Hlen Harea].
  cbn in Hc. apply elem_of_cons in Hc as [-> | Hc]; [discriminate Hlen|].
  apply elem_of_cons in Hc as [-> | Hc]; [discriminate Harea|].
  by apply elem_of_nil in Hc.
Qed.

(** With a large four-cornered outline the detector rectifies: the
    canvas side is the longest edge, truncated. *)
Example detect_board_found :
  (height <$> default None
     (match @detect_board board_cv BoardDetector.__init__ blank_image with
      | Ok r => Some r | Raise _ => None end)) = Some 404%nat.
Proof. vm_compute. reflexivity. Qed.

(** C9, as stated, fails: a square whose mean luminance is exactly 90 lies
    in the band from 90 to 170 and is not below 90, yet the classifier
    answers the black pawn. *)
Lemma luminance_90_is_black_pawn :
  let square_img := square_90 in
  np_mean (@to_gray no_board_cv square_img) = of_Z 90 /\
  leb (of_Z 90) (of_Z 90) = true /\ ltb (of_Z 90) (of_Z 170) = true /\
  ltb (of_Z 90) (of_Z 90) = false /\
  @_detect_piece_on_square no_board_cv square_img = Ok "p" /\
  @_detect_piece_on_square no_board_cv square_img <> Ok " ".
Proof. vm_compute. repeat split; discriminate. Qed.

Lemma detect_piece_thresholds_witness :
  @_detect_piece_on_square no_board_cv (Gray [[100; 120]; [130; 150]])
  = Ok " " /\
  @_detect_piece_on_square no_board_cv (Gray [[170]]) = Ok "P" /\
  @_detect_piece_on_square no_board_cv (Color [[(30, 60, 90)]]) = Ok "p".
Proof.
  split; [|split].
  - refine (proj1 (@detect_piece_thresholds no_board_cv
                     (Gray [[100; 120]; [130; 150]])) _ _);
      vm_compute; reflexivity.
  - refine (proj1 (proj2 (@detect_piece_thresholds no_board_cv
                            (Gray [[170]]))) _);
      vm_compute; reflexivity.
  - refine (proj2 (proj2 (@detect_piece_thresholds no_board_cv
                            (Color [[(30, 60, 90)]]))) _);
      vm_compute; reflexivity.
Defined.

(** The model's integer division agrees with IEEE division of the
    converted operands on every centipawn value from -2000 to 2000. *)
Example int_true_divide_agrees_with_ieee :
  forallb (fun c =>
      match int_true_divide c 100, div (of_Z c) (of_Z 100) with
      | Ok (S754_finite s m e), S754_finite s' m' e' =>
          Bool.eqb s s' && Pos.eqb m m' && Z.eqb e e'
      | Ok (S754_zero s), S754_zero s' => Bool.eqb s s'
      | _, _ => false
      end)
    (map (fun n => Z.of_nat n - 2000) (seq 0 4001)) = true.
Proof. vm_compute. reflexivity. Qed.

Lemma get_best_move_score_raises_witness :
  (get_best_move steady_engine (session0 steady_engine) starting_fen 18
     two_seconds).1
  = error_dict "Analysis error: 'PovScore' object has no attribute 'cp'" /\
  (get_best_move mated_engine (session0 mated_engine) starting_fen 18
     two_seconds).1
  = error_dict "Analysis error: 'PovScore' object has no attribute 'mate'".
Proof.
  split.
  - exact (f_equal fst
             (get_best_move_score_raises steady_engine
                (session0 steady_engine) 0%nat starting_fen 18 two_seconds
                initial_grid (info_of [e2e4; e7e5] (cp_score 35))
                {| move := Some e2e4 |} (cp_score 35)
                eq_refl eq_refl eq_refl eq_refl eq_refl)).
  - exact (f_equal fst
             (get_best_move_score_raises mated_engine
                (session0 mated_engine) 0%nat starting_fen 18 two_seconds
                initial_grid (info_of [e2e4] (mate_score (-3)))
                {| move := Some e2e4 |} (mate_score (-3))
                eq_refl eq_refl eq_refl eq_refl eq_refl)).
Defined.



Lemma quit_then_reopen_witness :
  let self := session0 steady_engine in
  let closed := (quit steady_engine self).2 in
  engine self = Some 0%nat /\
  engine closed = None /\
  quit steady_engine closed = (Ok (), closed) /\
  engine (get_best_move steady_engine closed starting_fen 18
            two_seconds).2 = Some 3%nat.
Proof.
  intros self closed.
  destruct (quit_then_reopen steady_engine self 0%nat eq_refl eq_refl)
    as (Hnone & _ & Hquit & Hnext).
  split; [reflexivity|]. split; [exact Hnone|]. split; [exact Hquit|].
  exact (proj2 (Hnext starting_fen 18 two_seconds) 3%nat eq_refl eq_refl).
Defined.

(** C3, as stated, fails: after [quit] the next [get_best_move] spawns a
    new engine process and the session holds a handle again. *)
Lemma closed_session_respawns :
  let self := session0 steady_engine in
  let closed := (quit steady_engine self).2 in
  let after := (get_best_move steady_engine closed starting_fen 18
                  two_seconds).2 in
  engine closed = None /\
  engine after = Some 3%nat /\
  trace closed
  = [Popen "stockfish"; Configure 0%nat 2 32; Quit 0%nat] /\
  firstn 2 (skipn 3 (trace after))
  = [Popen "stockfish"; Configure 3%nat 2 32].
Proof. intros self closed after. do 3 (split; [reflexivity|]). reflexivity. Qed.

Lemma analyze_position_invalid_witness :
  chess_Board "invalid-fen-string"
  = Raise "invalid character in fen: 'invalid-fen-string'" /\
  analyze_position steady_engine (analyzer0 steady_engine)
    "invalid-fen-string" 18 two_seconds
  = (error_dict "Invalid FEN string", analyzer0 steady_engine).
Proof.
  split; [reflexivity|].
  exact (proj1 (analyze_position_invalid steady_engine
                  (analyzer0 steady_engine) "invalid-fen-string" 18
                  two_seconds _ eq_refl)).
Defined.

(** C4, as stated, fails: the notation of a board without kings is not
    that of a legal position, but [chess.Board] reads it, and
    [analyze_position], which has no test of legality, passes it on: the
    result is not the error dictionary and the engine is called. *)
Lemma illegal_position_reaches_engine :
  let self := analyzer0 steady_engine in
  let limit := {| limit_depth := 18; limit_time := two_seconds |} in
  let r := analyze_position steady_engine self empty_fen 18 two_seconds in
  count_char "K" (placement_field empty_fen) = 0%nat /\
  count_char "k" (placement_field empty_fen) = 0%nat /\
  chess_Board empty_fen = Ok empty_grid /\
  r.1 !! "error" = None /\
  r.1 !! "fen" = Some (PyStr empty_fen) /\
  trace (stockfish r.2)
  = (trace (stockfish self) ++
     [Analyse 0%nat empty_grid limit; Play 0%nat empty_grid limit])%list.
Proof.
  intros self limit r. do 3 (split; [reflexivity|]).
  split; [vm_compute; reflexivity|]. split; [vm_compute; reflexivity|].
  reflexivity.
Qed.

Lemma format_move_fallback_witness :
  format_move_with_pieces (analyzer0 steady_engine) starting_fen
    (Some "e2e9") = "Move e2e9" /\
  format_move_with_pieces (analyzer0 steady_engine) "invalid-fen-string"
    (Some "e2e4") = "Move e2e4".
Proof.
  split.
  - refine (proj1 (proj2 (proj2 (format_move_fallback
              (analyzer0 steady_engine) starting_fen)) "e2e9" _ _ _)).
    + cbn. lia.
    + right. reflexivity.
  - refine (proj1 (proj2 (proj2 (format_move_fallback
              (analyzer0 steady_engine) "invalid-fen-string")) "e2e4" _ _ _)).
    + cbn. lia.
    + left. reflexivity.
Defined.

(** C10, as stated, fails: for the two-character move ["e2"] the text
    returned is ["No move available"], which does not name the move. *)
Lemma short_move_not_named :
  format_move_with_pieces (analyzer0 steady_engine) starting_fen (Some "e2")
  = "No move available" /\
  String.index 0 "e2" "No move available" = None /\
  format_move_with_pieces (analyzer0 steady_engine) starting_fen None
  = "No move available".
Proof. vm_compute. repeat split. Qed.

Example format_move_e2e4 :
  format_move_with_pieces (analyzer0 steady_engine) starting_fen
    (Some "e2e4") = "white pawn from e2 to e4".
Proof. reflexivity. Qed.

End Runs.

(* ================================================================== *)
(** * Further properties of the serialisation and of the encoder        *)
(* ================================================================== *)

Section EncoderEdges.
Import Float64 BoardDetector FenNotation Samples.

(** Two loop bodies that agree on the elements of the list give the same
    loop. *)
Lemma for_in_ext {X S} (xs : list X) (body1 body2 : X -> S -> res S) :
  (forall x s, x ∈ xs -> body1 x s = body2 x s) ->
  forall s, for_in xs body1 s = for_in xs body2 s.
Proof.
  induction xs as [|x xs IH]; intros Hext s; [done|].
  cbn [for_in]. rewrite (Hext x s) by set_solver.
  destruct (body2 x s) as [s'|msg]; [|done].
  rewrite !bind_Ok. apply IH. intros y t Hy. apply Hext. set_solver.
Qed.

(** An exception of a loop is an exception of one turn of its body. *)
Lemma for_in_raise_inv {X S} (xs : list X) (body : X -> S -> res S) :
  forall s msg,
    for_in xs body s = Raise msg ->
    exists x s', x ∈ xs /\ body x s' = Raise msg.
Proof.
  induction xs as [|x xs IH]; intros s msg Hraise; [done|].
  cbn [for_in] in Hraise. destruct (body x s) as [s'|msg'] eqn:Hbody.
  - rewrite bind_Ok in Hraise.
    destruct (IH _ _ Hraise) as (y & t & Hy & Ht).
    exists y, t. split; [set_solver | done].
  - injection Hraise as <-. exists x, s. split; [set_solver | done].
Qed.

Lemma getitem_raise {A} (l : list A) (i : nat) (msg : string) :
  getitem l i = Raise msg -> msg = "list index out of range".
Proof. unfold getitem. destruct (l !! i); [done | by intros [= <-]]. Qed.

Lemma getitem_take {A} (l : list A) (n i : nat) :
  (i < n)%nat -> getitem (take n l) i = getitem l i.
Proof. intros Hi. unfold getitem. by rewrite lookup_take_lt. Qed.

Lemma getitem_fmap {A B} (f : A -> B) (l : list A) (i : nat) :
  getitem (f <$> l) i
  = match getitem l i with Ok x => Ok (f x) | Raise msg => Raise msg end.
Proof. unfold getitem. rewrite list_lookup_fmap. by destruct (l !! i). Qed.

(** Rows and cells past the eighth do not change the result of
    [_board_to_fen]. *)
Lemma board_to_fen_crop8 (board : board_t) :
  _board_to_fen board = _board_to_fen (crop8 board).
Proof.
  unfold _board_to_fen. f_equal. apply for_in_ext. intros row fen Hrow.
  apply elem_of_seq in Hrow. f_equal. apply for_in_ext. intros col st Hcol.
  apply elem_of_seq in Hcol.
  unfold crop8. rewrite getitem_take, getitem_fmap by lia.
  destruct (getitem board row) as [brow|msg]; [|done].
  rewrite !bind_Ok. by rewrite getitem_take by lia.
Qed.

(** X1. [_board_to_fen] reads nothing but the first eight cells of the
    first eight rows: two boards that agree there give the same result,
    a notation or an exception, whatever else they hold. *)
Theorem board_to_fen_reads_crop (board1 board2 : board_t) :
  crop8 board1 = crop8 board2 ->
  _board_to_fen board1 = _board_to_fen board2.
Proof.
  intros Hcrop.
  by rewrite (board_to_fen_crop8 board1), (board_to_fen_crop8 board2), Hcrop.
Qed.

(** Every exception of [_board_to_fen] is an [IndexError]. *)
Lemma board_to_fen_raise (board : board_t) (msg : string) :
  _board_to_fen board = Raise msg -> msg = "list index out of range".
Proof.
  rewrite board_to_fen_row_step.
  destruct (for_in (range 8) (row_step board) "") as [fen|msg'] eqn:Hrows;
    [done|].
  intros [= <-].
  apply for_in_raise_inv in Hrows as (row & fen & _ & Hrow).
  unfold row_step in Hrow.
  destruct (for_in (range 8) _ (0%nat, fen)) as [[e f]|msg''] eqn:Hcols;
    [done|].
  injection Hrow as <-.
  apply for_in_raise_inv in Hcols as (col & st & _ & Hcell).
  destruct (getitem board row) as [brow|m] eqn:Hb.
  - rewrite bind_Ok in Hcell.
    destruct (getitem brow col) as [cell|m] eqn:Hc; [done|].
    injection Hcell as <-. by eapply getitem_raise.
  - injection Hcell as <-. by eapply getitem_raise.
Qed.

Lemma board_to_fen_raises_at (board : board_t) (row col : nat) :
  (row < 8)%nat -> (col < 8)%nat ->
  (board !! row ≫= fun brow => brow !! col) = None ->
  _board_to_fen board = Raise "list index out of range".
Proof.
  intros Hrow Hcol Hnone.
  assert (Hraise : exists msg, _board_to_fen board = Raise msg).
  { rewrite board_to_fen_row_step.
    destruct (for_in_raises (range 8) (row_step board) row) with (s := "")
      as [msg ->]; [apply elem_of_seq; lia | | by eexists].
    intros fen. unfold row_step.
    destruct (for_in_raises (range 8)
                (fun col st =>
                   brow ← getitem board row;
                   cell ← getitem brow col;
                   Ok (fen_cell cell st)) col) with (s := (0%nat, fen))
      as [msg ->]; [apply elem_of_seq; lia | | by eexists].
    intros st. unfold getitem.
    destruct (board !! row) as [brow|]; [|by eexists].
    cbn in Hnone. rewrite bind_Ok, Hnone. by eexists. }
  destruct Hraise as [msg Hmsg]. by rewrite Hmsg, (board_to_fen_raise _ _ Hmsg).
Qed.

(** X2. [_board_to_fen] returns exactly on the boards that have eight
    rows of eight cells or more; on every other board (a missing row, a
    short row) it raises [IndexError]. *)
Theorem board_to_fen_index_error (board : board_t) :
  (covers8 board ->
   _board_to_fen board = Ok (encode_rows (crop8 board) +:+ " w KQkq - 0 1")) /\
  (~ covers8 board ->
   _board_to_fen board = Raise "list index out of range").
Proof.
  split.
  - intros [Hlen Hrows]. rewrite board_to_fen_crop8.
    apply board_to_fen_encode_rows; unfold crop8.
    + rewrite length_take, length_fmap. lia.
    + rewrite <- fmap_take. apply Forall_fmap.
      eapply Forall_impl; [exact Hrows|]. intros brow Hb. cbn in *.
      rewrite length_take. lia.
  - intros Hnot.
    destruct (decide (8 <= length board)%nat) as [Hlen | Hlen].
    + assert (Hex : Exists (fun brow : list string => ~ (8 <= length brow)%nat)
                      (take 8 board)).
      { apply not_Forall_Exists; [apply _|]. intros HF. by apply Hnot. }
      apply Exists_exists in Hex as (brow & Hin & Hshort).
      apply list_elem_of_lookup in Hin as [row Hrow].
      assert (row < 8)%nat.
      { apply lookup_lt_Some in Hrow. rewrite length_take in Hrow. lia. }
      rewrite lookup_take_lt in Hrow by lia.
      apply (board_to_fen_raises_at board row (length brow)); [lia | lia |].
      rewrite Hrow. cbn. apply lookup_ge_None. lia.
    + apply (board_to_fen_raises_at board (length board) 0); [lia | lia |].
      rewrite (proj2 (lookup_ge_None board (length board))); [done | lia].
Qed.

(** X3. Whatever the classifier and the image, and on failure too, the
    string [get_position_fen] returns is some placement followed by the
    fixed fields [" w KQkq - 0 1"]: white is always to move.  In
    particular it is never empty, so the [if not fen] branch of its caller
    cannot be taken. *)
Theorem get_position_fen_suffix (classify : classifier)
    (board_image : option ndarray) :
  (exists placement,
      (get_position_fen_with classify board_image).2
      = placement +:+ " w KQkq - 0 1") /\
  (get_position_fen_with classify board_image).2 <> "".
Proof.
  assert (Hsuffix : exists placement,
             (get_position_fen_with classify board_image).2
             = placement +:+ " w KQkq - 0 1").
  { unfold get_position_fen_with.
    destruct (position_fen_try classify board_image) as [fen|msg] eqn:Htry.
    - unfold position_fen_try in Htry.
      destruct board_image as [image|]; [|done]. rewrite bind_Ok in Htry.
      destruct (for_in (range 8) _ _) as [board|msg]; [|done].
      rewrite bind_Ok, board_to_fen_row_step in Htry.
      destruct (for_in (range 8) (row_step board) "") as [f|msg]; [|done].
      injection Htry as <-. by exists f.
    - by exists "rnbqkbnr/pppppppp/8/8/8/8/PPPPPPPP/RNBQKBNR". }
  split; [exact Hsuffix|].
  destruct Hsuffix as [placement ->]. by destruct placement.
Qed.

(** The grid of labels when every cell has the same label. *)
Lemma image_labels_const (classify : classifier) (image : ndarray)
    (label : string) :
  (forall row col, (row < 8)%nat -> (col < 8)%nat ->
     cell_label classify image row col = label) ->
  image_labels classify image = replicate 8 (replicate 8 label).
Proof.
  intros Hcell. unfold image_labels. cbn [seq map].
  rewrite !Hcell by lia. reflexivity.
Qed.

(** The class's own classifier answers on every square of a grayscale
    image: no OpenCV call is made. *)
Lemma own_classifier_gray `{cv : OpenCV} (px : list (list Z)) :
  answers own_classifier (Gray px).
Proof.
  intros row col _ _. unfold square_at. cbn [slice2 height].
  unfold own_classifier, _detect_piece_on_square. cbn [gray_of].
  rewrite !bind_Ok. by eexists.
Qed.

(** X4. A board image all of whose 64 squares have a mean luminance
    strictly between 90 and 170 is encoded as the empty board
    ["8/8/8/8/8/8/8/8 w KQkq - 0 1"], and nothing is printed. *)
Theorem get_position_fen_all_mid `{cv : OpenCV} (image : ndarray) :
  (forall row col, (row < 8)%nat -> (col < 8)%nat ->
     ltb (of_Z 90) (np_mean (to_gray (square_at image row col))) = true /\
     ltb (np_mean (to_gray (square_at image row col))) (of_Z 170) = true) ->
  get_position_fen (Some image) = ([], "8/8/8/8/8/8/8/8 w KQkq - 0 1").
Proof.
  intros Hmid. unfold get_position_fen.
  assert (Hblank : forall row col, (row < 8)%nat -> (col < 8)%nat ->
            own_classifier (square_at image row col) = Ok (Some " ")).
  { intros row col Hrow Hcol.
    destruct (Hmid row col Hrow Hcol) as [H90 H170].
    unfold own_classifier.
    rewrite detect_piece_pixels
      by (apply (compared_mean_has_pixels _ (of_Z 90)); by left).
    cbv zeta. by rewrite H90, H170. }
  rewrite get_position_fen_rank_order
    by (intros row col Hrow Hcol; rewrite Hblank by done; by eexists).
  rewrite (image_labels_const _ _ " "); [reflexivity|].
  intros row col Hrow Hcol. unfold cell_label. by rewrite Hblank.
Qed.

(** X5. A grayscale board image of fewer than eight rows is not rejected:
    every square is cut out empty, its mean luminance is not a number,
    and the image is encoded as a board of 64 black pawns. *)
Theorem get_position_fen_tiny `{cv : OpenCV} (px : list (list Z)) :
  (length px < 8)%nat ->
  get_position_fen (Some (Gray px))
  = ([], "pppppppp/pppppppp/pppppppp/pppppppp/pppppppp/pppppppp/pppppppp/pppppppp w KQkq - 0 1").
Proof.
  intros Hlen. unfold get_position_fen.
  rewrite get_position_fen_rank_order by apply own_classifier_gray.
  rewrite (image_labels_const _ _ "p"); [reflexivity|].
  intros row col _ _. unfold cell_label, square_at. cbn [height].
  rewrite (Nat.div_small (length px) 8) by lia.
  rewrite !Nat.mul_0_r. reflexivity.
Qed.

(** Slicing inside a prefix that holds the slice. *)
Lemma slice_take {A} (i j n : nat) (l : list A) :
  (j <= n)%nat -> slice i j (take n l) = slice i j l.
Proof.
  intros Hj. unfold slice. destruct (decide (i <= n)%nat) as [Hi | Hi].
  - replace n with (i + (n - i))%nat at 1 by lia.
    rewrite <- take_drop_commute, take_take. f_equal. lia.
  - replace (j - i)%nat with 0%nat by lia. done.
Qed.

Lemma slice_0 {A} (n : nat) (l : list A) : slice 0 n l = take n l.
Proof. unfold slice. by rewrite drop_0, Nat.sub_0_r. Qed.

Lemma slice_map {A B} (f : A -> B) (i j : nat) (l : list A) :
  slice i j (map f l) = map f (slice i j l).
Proof. unfold slice. by rewrite skipn_map, firstn_map. Qed.

Lemma slice2_crop {A} (side y1 y2 x1 x2 : nat) (px : list (list A)) :
  (y2 <= side)%nat -> (x2 <= side)%nat ->
  map (slice x1 x2) (slice y1 y2 (map (slice 0 side) (slice 0 side px)))
  = map (slice x1 x2) (slice y1 y2 px).
Proof.
  intros Hy Hx. rewrite (slice_0 side px), slice_map, slice_take by done.
  rewrite List.map_map. apply List.map_ext. intros brow.
  rewrite slice_0. by apply slice_take.
Qed.

Lemma square_at_crop (image : ndarray) (row col : nat) :
  (row < 8)%nat -> (col < 8)%nat ->
  square_at (crop_image image) row col = square_at image row col.
Proof.
  intros Hrow Hcol.
  assert (Hside : forall A (px : list (list A)),
            (length (slice 0 (8 * (length px / 8)) px) / 8
             = length px / 8)%nat).
  { intros A px. unfold slice. rewrite drop_0, Nat.sub_0_r, length_take.
    pose proof (Nat.Div0.mul_div_le (length px) 8).
    rewrite Nat.min_l by lia. rewrite Nat.mul_comm. by apply Nat.div_mul. }
  unfold square_at, crop_image.
  destruct image as [px|px]; cbn [height slice2];
    rewrite length_map, Hside; f_equal; apply slice2_crop; nia.
Qed.

(** X6. Pixels beyond [8 * (height // 8)] rows and columns never reach
    the classifier: cropping the image to that square leaves the printed
    lines and the notation returned unchanged. *)
Theorem get_position_fen_crop (classify : classifier) (image : ndarray) :
  get_position_fen_with classify (Some (crop_image image))
  = get_position_fen_with classify (Some image).
Proof.
  unfold get_position_fen_with. rewrite !position_fen_try_loops.
  rewrite (for_in_ext (range 8)
             (fun row board =>
                for_in (range 8) (classify_cell classify (crop_image image) row)
                  board)
             (fun row board =>
                for_in (range 8) (classify_cell classify image row) board));
    [done|].
  intros row board Hrow. apply elem_of_seq in Hrow.
  apply for_in_ext. intros col b Hcol. apply elem_of_seq in Hcol.
  unfold classify_cell. by rewrite square_at_crop by lia.
Qed.

(** The notation written for a grid of labels decodes to the grid. *)
Lemma decode_reverse_labels (classify : classifier) (image : ndarray) :
  (forall row col, (row < 8)%nat -> (col < 8)%nat ->
     cell_label classify image row col ∈ piece_labels) ->
  decode_placement
    (placement_field
       (encode_rows (reverse (image_labels classify image))
        +:+ " w KQkq - 0 1"))
  = Some (reverse (image_labels classify image)).
Proof.
  intros Hlab.
  assert (Hdec : decode_ranks (encode_rows (reverse (image_labels classify image)))
                   [] = Some (reverse (image_labels classify image))).
  { apply decode_encode_rows; unfold image_labels;
      cbn [seq map reverse rev_append]; [done|].
    repeat (apply Forall_cons; split;
            [split; [reflexivity|];
             repeat (apply Forall_cons; split; [apply Hlab; lia|]);
             constructor|]).
    constructor. }
  change (?p +:+ " w KQkq - 0 1") with (p +:+ " " +:+ "w KQkq - 0 1").
  by rewrite (decode_placement_field _ _ _ _ Hdec).
Qed.

(** X7. When the classifier answers on every square with one of the
    thirteen piece labels (or with nothing), the placement field of the
    notation returned decodes to the grid of the labels kept, read from
    the bottom image row up. *)
Theorem get_position_fen_decodes (classify : classifier) (image : ndarray) :
  answers classify image ->
  (forall row col, (row < 8)%nat -> (col < 8)%nat ->
     cell_label classify image row col ∈ piece_labels) ->
  decode_placement
    (placement_field (get_position_fen_with classify (Some image)).2)
  = Some (reverse (image_labels classify image)).
Proof.
  intros Hok Hlab. rewrite (get_position_fen_rank_order _ _ Hok). cbn [snd].
  by apply decode_reverse_labels.
Qed.

(** X8. With the class's own classifier, a notation that
    [get_position_fen] returns without printing an error line holds
    eight ranks of eight squares with blanks and pawns only: no king and
    no other piece is ever written.  No error line is printed on a
    grayscale image, nor on an image whose 64 squares all have pixels. *)
Theorem get_position_fen_pawns_only `{cv : OpenCV} (image : ndarray) :
  (forall px, image = Gray px -> (get_position_fen (Some image)).1 = []) /\
  ((forall row col, (row < 8)%nat -> (col < 8)%nat ->
      no_pixels (to_gray (square_at image row col)) = false) ->
   (get_position_fen (Some image)).1 = []) /\
  ((get_position_fen (Some image)).1 = [] ->
   exists grid,
     decode_placement (placement_field (get_position_fen (Some image)).2)
     = Some grid /\
     length grid = 8%nat /\
     Forall (fun brow : list string =>
               length brow = 8%nat /\
               Forall (fun cell => cell ∈ [" "; "P"; "p"]) brow) grid).
Proof.
  unfold get_position_fen. split; [|split].
  - intros px ->.
    by rewrite get_position_fen_rank_order by apply own_classifier_gray.
  - intros Hpx. rewrite get_position_fen_rank_order; [done|].
    intros row col Hrow Hcol. unfold own_classifier.
    rewrite detect_piece_pixels by by apply Hpx.
    cbv zeta. rewrite bind_Ok. by eexists.
  - intros Hquiet.
    assert (Hok : answers own_classifier image).
    { unfold get_position_fen_with in Hquiet.
      destruct (position_fen_try own_classifier (Some image))
        as [fen|msg] eqn:Htry; [|discriminate Hquiet].
      by eapply position_fen_try_answers. }
    rewrite (get_position_fen_rank_order _ _ Hok). cbn [snd].
    exists (reverse (image_labels own_classifier image)). split.
    + apply decode_reverse_labels. intros row col _ _.
      pose proof (reference_labels image row col) as Hl.
      rewrite !elem_of_cons, elem_of_nil in Hl. unfold piece_labels.
      rewrite !elem_of_cons. tauto.
    + unfold image_labels. cbn [seq map reverse rev_append].
      split; [done|].
      repeat (apply Forall_cons; split;
              [split; [reflexivity|];
               repeat (apply Forall_cons; split; [apply reference_labels|]);
               constructor|]).
      constructor.
Qed.

(** X23. A colour board image of fewer than eight rows, unlike a
    grayscale one, is not encoded: the squares are cut out without
    pixels, [cv2.cvtColor] raises on the first of them, and
    [get_position_fen] prints the error line and returns the
    initial-position notation. *)
Theorem get_position_fen_tiny_colour `{cv : OpenCV}
    (px : list (list (Z * Z * Z))) :
  (length px < 8)%nat ->
  get_position_fen (Some (Color px))
  = (["Error in position extraction: " +:+ cv2_error "cvtColor"],
     "rnbqkbnr/pppppppp/8/8/8/8/PPPPPPPP/RNBQKBNR w KQkq - 0 1").
Proof.
  intros Hlen. unfold get_position_fen, get_position_fen_with.
  unfold position_fen_try. rewrite bind_Ok. cbn [height].
  rewrite (Nat.div_small (length px) 8) by lia. reflexivity.
Qed.

End EncoderEdges.

(* ================================================================== *)
(** * Further properties of the detector                                 *)
(* ================================================================== *)

Section DetectorMore.
Import Float64 BoardDetector.
Context `{cv : OpenCV}.

(** X9. On an image that has pixels, the contour loop stops at the
    first contour that passes the test: the board returned is the
    rectification of that contour, and the contours after it are not
    looked at. *)
Theorem detect_board_first_match (self : ChessBoardDetector)
    (image : ndarray) (before : list contour) (c : contour)
    (after : list contour) :
  no_pixels (to_gray image) = false ->
  findContours (adaptiveThreshold (to_gray image))
  = (before ++ c :: after)%list ->
  Forall (fun c' => ~ passes self c') before ->
  passes self c ->
  detect_board self image
  = (warped ← rectify image (approxPolyDP c (mul lit_0_02 (arcLength c)));
     Ok (Some warped)).
Proof.
  intros Hpx Hcontours Hbefore [H4 Harea].
  rewrite (detect_board_pixels _ _ Hpx), Hcontours. clear Hcontours.
  induction Hbefore as [|c' before Hc' _ IH]; cbn [app first_board]; cbv zeta.
  - by rewrite H4, Harea.
  - destruct (Nat.eqb_spec
                (length (approxPolyDP c' (mul lit_0_02 (arcLength c')))) 4)
      as [H4' | H4']; [|exact IH].
    destruct (ltb _ (contourArea c')) eqn:Harea'; [|exact IH].
    by destruct Hc'.
Qed.

(** [sorted] permutes its argument and puts the keys in order. *)
Lemma insert_by_perm {A} (key : A -> Z) (x : A) (l : list A) :
  insert_by key x l ≡ₚ x :: l.
Proof.
  induction l as [|y l IH]; [done|]. cbn [insert_by].
  destruct (key x <=? key y); [done|]. by rewrite IH, Permutation_swap.
Qed.

Lemma sorted_perm {A} (key : A -> Z) (l : list A) : sorted key l ≡ₚ l.
Proof.
  induction l as [|x l IH]; [done|]. unfold sorted in *. cbn [foldr].
  by rewrite insert_by_perm, IH.
Qed.

Lemma insert_by_sorted {A} (key : A -> Z) (x : A) (l : list A) :
  StronglySorted (fun a b => key a <= key b) l ->
  StronglySorted (fun a b => key a <= key b) (insert_by key x l).
Proof.
  induction 1 as [|y l Hl IH Hy]; cbn [insert_by].
  - repeat constructor.
  - destruct (Z.leb_spec (key x) (key y)) as [Hxy | Hxy].
    + constructor; [by constructor|]. constructor; [done|].
      eapply Forall_impl; [exact Hy|]. intros z Hz. cbn in *. lia.
    + constructor; [done|]. rewrite insert_by_perm.
      constructor; [lia | done].
Qed.

Lemma sorted_sorted {A} (key : A -> Z) (l : list A) :
  StronglySorted (fun a b => key a <= key b) (sorted key l).
Proof.
  induction l as [|x l IH]; [constructor|]. by apply insert_by_sorted.
Qed.

(** X10. On a polygon of four points, the corners handed to the
    perspective transform are the four points, each once: first one of
    least [x + y] (top-left), last but one one of greatest [x + y]
    (bottom-right), and of the other two the one of smaller [y - x] second
    (top-right) and the other last (bottom-left).  The canvas is square,
    its side the larger of the two truncated edge lengths. *)
Theorem rectify_corners (image : ndarray) (approx : list point) :
  length approx = 4%nat ->
  exists tl tr br bl,
    approx ≡ₚ [tl; tr; br; bl] /\
    (forall p, p ∈ approx ->
       tl.1 + tl.2 <= p.1 + p.2 <= br.1 + br.2) /\
    tr.2 - tr.1 <= bl.2 - bl.1 /\
    rectify image approx
    = (w ← to_int (py_max (norm tr tl) (norm br bl));
       h ← to_int (py_max (norm bl tl) (norm br tr));
       Ok (warpPerspective image
             (getPerspectiveTransform [tl; tr; br; bl]
                [(0, 0); (Z.max w h - 1, 0);
                 (Z.max w h - 1, Z.max w h - 1); (0, Z.max w h - 1)])
             (Z.max w h, Z.max w h))).
Proof.
  intros Hlen. unfold rectify.
  match goal with
  | |- context [sorted ?key approx] =>
      pose proof (sorted_perm key approx) as Hperm;
      pose proof (sorted_sorted key approx) as Hsort;
      destruct (sorted key approx) as [|a [|b [|c [|d [|? ?]]]]]
  end;
    try (apply Permutation_length in Hperm; unfold point in *;
         cbn in Hperm; lia).
  apply StronglySorted_inv in Hsort as [Hsort Ha].
  apply StronglySorted_inv in Hsort as [Hsort Hb].
  apply StronglySorted_inv in Hsort as [_ Hc].
  apply Forall_cons in Ha as [Hab Ha]. apply Forall_cons in Ha as [Hac Ha].
  apply Forall_cons in Ha as [Had _].
  apply Forall_cons in Hb as [Hbc Hb]. apply Forall_cons in Hb as [Hbd _].
  apply Forall_cons in Hc as [Hcd _]. cbn beta in *.
  assert (Hbounds : forall p, p ∈ approx ->
            a.1 + a.2 <= p.1 + p.2 <= d.1 + d.2).
  { intros p Hp. rewrite <- Hperm in Hp.
    rewrite !elem_of_cons, elem_of_nil in Hp.
    destruct Hp as [-> | [-> | [-> | [-> | []]]]]; lia. }
  destruct (Z.leb_spec (b.2 - b.1) (c.2 - c.1)) as [Hbc' | Hbc'].
  - exists a, b, d, c. split; [|split; [done|split; [done|]]].
    + rewrite <- Hperm. do 2 apply perm_skip. apply perm_swap.
    + cbv [getitem sorted foldr insert_by lookup list_lookup mbind res_bind].
      by rewrite (proj2 (Z.leb_le _ _) Hbc').
  - exists a, c, d, b. split; [|split; [done|split; [lia|]]].
    + rewrite <- Hperm. apply perm_skip.
      apply (Permutation_cons_append [c; d] b).
    + cbv [getitem sorted foldr insert_by lookup list_lookup mbind res_bind].
      by rewrite (proj2 (Z.leb_gt _ _) Hbc').
Qed.

End DetectorMore.

(* ================================================================== *)
(** * Further properties of the engine session                          *)
(* ================================================================== *)

Section EngineMore.
Import Float64 Chess StockfishEngine.
Context `{lib : ChessLib}.
Variable w : Engine.

(** Nothing is added to the trace by an empty list of calls. *)
Lemma set_engine_nil (self : StockfishEngine) :
  set_engine self (engine self) [] = self.
Proof. destruct self. unfold set_engine. cbn. by rewrite app_nil_r. Qed.

(** The score text is a string. *)
Lemma score_text_shape (so : PovScore) (v : pyval) :
  score_text so = Ok v -> exists s, v = PyStr s.
Proof. by rewrite score_text_raises. Qed.

(** The dictionary of the [try] block and the calls it makes. *)
Lemma best_move_try_shape (self : StockfishEngine) (h : handle)
    (fen : string) (depth : Z) (time_limit : float) :
  let limit := {| limit_depth := depth; limit_time := time_limit |} in
  (forall d, (best_move_try w self h fen depth time_limit).1 = Ok d ->
     exists bm sc dp pv,
       d = <["best_move" := bm]> (<["score" := sc]>
           (<["depth" := PyInt dp]> (<["pv" := PyList pv]> ∅))) /\
       (bm = PyNone \/ exists s, bm = PyStr s) /\
       (sc = PyNone \/ exists s, sc = PyStr s)) /\
  (best_move_try w self h fen depth time_limit).2
  = match chess_Board fen with
    | Raise _ => []
    | Ok board =>
        Analyse h board limit ::
        match analyse w (trace self) h board limit with
        | Ok _ => [Play h board limit]
        | Raise _ => []
        end
    end.
Proof.
  intros limit. unfold best_move_try. fold limit.
  destruct (chess_Board fen) as [board|msg]; [|done].
  destruct (analyse w _ h board limit) as [info|msg]; [|done].
  destruct (play w _ h board limit) as [result|msg]; [|done].
  split; [|done]. cbn [fst]. intros d Hd.
  destruct (match info_score info with
            | Some so => score_text so
            | None => Ok PyNone
            end) as [sc|msg] eqn:Hsc; [|done].
  rewrite bind_Ok in Hd. injection Hd as <-.
  eexists _, sc, _, _. split; [reflexivity|]. split.
  - destruct (move result); [right; by eexists | by left].
  - destruct (info_score info) as [so|].
    + right. by eapply score_text_shape.
    + left. by injection Hsc as <-.
Qed.

(** The three shapes of the dictionary [get_best_move] returns. *)
Lemma get_best_move_shape (self : StockfishEngine) (fen : string)
    (depth : Z) (time_limit : float) :
  let d := (get_best_move w self fen depth time_limit).1 in
  d = error_dict "Could not initialize engine" \/
  (exists msg, d = error_dict ("Analysis error: " +:+ msg)) \/
  (exists bm sc dp pv,
      d = <["best_move" := bm]> (<["score" := sc]>
          (<["depth" := PyInt dp]> (<["pv" := PyList pv]> ∅))) /\
      (bm = PyNone \/ exists s, bm = PyStr s) /\
      (sc = PyNone \/ exists s, sc = PyStr s)).
Proof.
  cbv zeta. unfold get_best_move.
  destruct (engine (ensure_engine w self)) as [h|]; [|by left].
  pose proof (proj1 (best_move_try_shape (ensure_engine w self) h fen depth
                       time_limit)) as Hshape.
  destruct (best_move_try w _ h fen depth time_limit) as [[d|msg] calls].
  - right; right. by apply Hshape.
  - right; left. by eexists.
Qed.

(** X11. [_init_engine] always spawns a process; the session holds a
    handle afterwards exactly when the spawn and the configuration both
    succeed, and the process is never quit: one whose configuration
    fails is dropped while it runs. *)
Theorem init_engine_outcome (self : StockfishEngine) :
  let path := stockfish_path self in
  let self' := _init_engine w self in
  stockfish_path self' = path /\
  (forall h,
     engine self' = Some h <->
     popen_uci w (trace self) path = Ok h /\
     configure w (trace self ++ [Popen path]) h = Ok ()) /\
  exists calls,
    trace self' = (trace self ++ Popen path :: calls)%list /\
    forall h, Quit h ∉ calls.
Proof.
  cbv zeta. unfold _init_engine.
  destruct (popen_uci w (trace self) (stockfish_path self)) as [h0|msg].
  - destruct (configure w _ h0) as [[]|msg] eqn:Hconf; cbn [set_engine engine
      trace stockfish_path].
    + split; [done|]. split.
      * intros h. split; [by intros [= <-]|].
        intros [Hp _]. by injection Hp as <-.
      * eexists. split; [done|]. intros h.
        rewrite elem_of_cons, elem_of_nil. by intros [? | []].
    + split; [done|]. split.
      * intros h. split; [done|]. intros [Hp Hc]. injection Hp as <-.
        by rewrite Hconf in Hc.
      * eexists. split; [done|]. intros h.
        rewrite elem_of_cons, elem_of_nil. by intros [? | []].
  - cbn [set_engine engine trace stockfish_path]. split; [done|]. split.
    + intros h. split; [done | by intros [? _]].
    + exists []. split; [done|]. intros h. apply not_elem_of_nil.
Qed.

(** X12. The dictionary [get_best_move] returns has one of two key sets:
    the single key ["error"], with the text ["Could not initialize
    engine"] or a text that starts with ["Analysis error: "]; or the four
    keys of a result, where the depth is a number, the line a list, and
    the move and the score each [None] or a string. *)
Theorem get_best_move_keys (self : StockfishEngine) (fen : string)
    (depth : Z) (time_limit : float) :
  let d := (get_best_move w self fen depth time_limit).1 in
  (dom d = ({["error"]} : gset string) /\
   (d !! "error" = Some (PyStr "Could not initialize engine") \/
    exists msg, d !! "error" = Some (PyStr ("Analysis error: " +:+ msg)))) \/
  (dom d = ({["best_move"; "score"; "depth"; "pv"]} : gset string) /\
   (exists dp, d !! "depth" = Some (PyInt dp)) /\
   (exists pv, d !! "pv" = Some (PyList pv)) /\
   (d !! "best_move" = Some PyNone \/
    exists s, d !! "best_move" = Some (PyStr s)) /\
   (d !! "score" = Some PyNone \/ exists s, d !! "score" = Some (PyStr s))).
Proof.
  intros d. subst d.
  destruct (get_best_move_shape self fen depth time_limit)
    as [-> | [[msg ->] | (bm & sc & dp & pv & -> & Hbm & Hsc)]].
  - left. unfold error_dict. rewrite dom_singleton_L. split; [done|].
    left. by simplify_map_eq.
  - left. unfold error_dict. rewrite dom_singleton_L. split; [done|].
    right. exists msg. by simplify_map_eq.
  - right. rewrite !dom_insert_L, dom_empty_L.
    split; [set_solver|]. split; [exists dp; by simplify_map_eq|].
    split; [exists pv; by simplify_map_eq|]. split.
    + destruct Hbm as [-> | [s ->]]; [left | right; exists s];
        by simplify_map_eq.
    + destruct Hsc as [-> | [s ->]]; [left | right; exists s];
        by simplify_map_eq.
Qed.

(** X13. On a session that holds a handle, [get_best_move] keeps the
    handle in every case, an exception of the engine included, and never
    spawns, configures or quits.  The calls it makes are fixed by the
    parse of the notation and by the first answer: none when
    [chess.Board] rejects the notation, the analysis alone when the
    analysis raises, and otherwise the analysis followed by the second
    search, both on the parsed board with the limit asked for. *)
Theorem get_best_move_traffic (self : StockfishEngine) (h : handle)
    (fen : string) (depth : Z) (time_limit : float) :
  engine self = Some h ->
  let limit := {| limit_depth := depth; limit_time := time_limit |} in
  let after := (get_best_move w self fen depth time_limit).2 in
  engine after = Some h /\
  stockfish_path after = stockfish_path self /\
  trace after
  = (trace self ++
     match chess_Board fen with
     | Raise _ => []
     | Ok board =>
         Analyse h board limit ::
         match analyse w (trace self) h board limit with
         | Ok _ => [Play h board limit]
         | Raise _ => []
         end
     end)%list.
Proof.
  intros Hh limit after. subst after.
  unfold get_best_move, ensure_engine. rewrite Hh. cbv zeta. rewrite Hh.
  pose proof (proj2 (best_move_try_shape self h fen depth time_limit))
    as Hcalls.
  destruct (best_move_try w self h fen depth time_limit) as [[d|msg] calls];
    cbn [snd] in *; by rewrite Hcalls.
Qed.

(** X14. A notation that [chess.Board] rejects is reported as an
    analysis error.  On a session that holds a handle the session is left
    as it was and the engine is not called; on a session without a handle
    the engine process is spawned first, before the notation is looked
    at. *)
Theorem get_best_move_invalid_fen (self : StockfishEngine) (fen : string)
    (depth : Z) (time_limit : float) (msg : string) :
  chess_Board fen = Raise msg ->
  (is_Some (engine self) ->
   get_best_move w self fen depth time_limit
   = (error_dict ("Analysis error: " +:+ msg), self)) /\
  (engine self = None ->
   exists calls,
     trace (get_best_move w self fen depth time_limit).2
     = (trace self ++ Popen (stockfish_path self) :: calls)%list /\
     Forall (fun c => exists h, c = Configure h 2 32) calls).
Proof.
  intros Hbad. split.
  - intros [h Hh]. unfold get_best_move, ensure_engine. rewrite Hh.
    cbv zeta. rewrite Hh. unfold best_move_try. rewrite Hbad.
    by rewrite <- Hh, set_engine_nil.
  - intros Hnone. unfold get_best_move, ensure_engine. rewrite Hnone.
    unfold _init_engine.
    destruct (popen_uci w (trace self) (stockfish_path self)) as [h|m].
    + destruct (configure w _ h) as [[]|m]; cbn [engine set_engine].
      * unfold best_move_try. rewrite Hbad. cbn [snd trace set_engine].
        rewrite app_nil_r. eexists. split; [done|].
        constructor; [by eexists | constructor].
      * cbn [snd trace set_engine]. eexists. split; [done|].
        constructor; [by eexists | constructor].
    + cbn [engine set_engine snd trace]. exists []. by split.
Qed.

(** X15. A session whose engine process cannot be spawned tries again at
    every request: after [n] requests, each answered with the error
    dictionary, the session has made [n] spawn attempts and nothing else,
    and still holds no handle. *)
Theorem unstartable_engine_retries (self : StockfishEngine) (fen : string)
    (depth : Z) (time_limit : float) (n : nat) :
  engine self = None ->
  (forall history path, exists msg, popen_uci w history path = Raise msg) ->
  let request := fun s => (get_best_move w s fen depth time_limit).2 in
  let after := Nat.iter n request self in
  engine after = None /\
  stockfish_path after = stockfish_path self /\
  trace after
  = (trace self ++ replicate n (Popen (stockfish_path self)))%list /\
  (get_best_move w after fen depth time_limit).1
  = error_dict "Could not initialize engine".
Proof.
  intros Hnone Hspawn request after.
  assert (Hstep : forall s, engine s = None ->
            get_best_move w s fen depth time_limit
            = (error_dict "Could not initialize engine",
               set_engine s None [Popen (stockfish_path s)])).
  { intros s Hs. unfold get_best_move, ensure_engine. rewrite Hs.
    unfold _init_engine.
    destruct (Hspawn (trace s) (stockfish_path s)) as [msg ->]. done. }
  assert (Hinv : engine after = None /\
                 stockfish_path after = stockfish_path self /\
                 trace after
                 = (trace self ++ replicate n (Popen (stockfish_path self)))%list).
  { subst after. induction n as [|k (IHe & IHp & IHt)].
    - cbn [Nat.iter replicate]. by rewrite app_nil_r.
    - rewrite Nat.iter_succ. set (s := Nat.iter k request self) in *.
      assert (Hreq : request s = set_engine s None [Popen (stockfish_path s)])
        by (unfold request; by rewrite (Hstep _ IHe)).
      rewrite Hreq. cbn [set_engine engine stockfish_path trace].
      split; [done|]. split; [done|].
      rewrite IHt, IHp, <- app_assoc. f_equal.
      replace (S k) with (k + 1)%nat by lia. by rewrite replicate_add. }
  destruct Hinv as (He & Hp & Ht). do 3 (split; [done|]).
  by rewrite (Hstep _ He).
Qed.

(** X16. When [engine.quit()] raises, [quit] lets the exception through
    and the session keeps the handle: it does not become closed, and a
    second [quit] calls the engine again on the same handle. *)
Theorem quit_failure_keeps_handle (self : StockfishEngine) (h : handle)
    (msg : string) :
  engine self = Some h ->
  engine_quit w (trace self) h = Raise msg ->
  let after := (quit w self).2 in
  (quit w self).1 = Raise msg /\
  engine after = Some h /\
  trace after = (trace self ++ [Quit h])%list /\
  trace (quit w after).2 = (trace self ++ [Quit h; Quit h])%list.
Proof.
  intros Hh Hquit after. subst after.
  assert (Hq : quit w self = (Raise msg, set_engine self (Some h) [Quit h])).
  { unfold quit. by rewrite Hh, Hquit. }
  rewrite Hq. cbn [fst snd engine trace set_engine]. do 3 (split; [done|]).
  unfold quit. cbn [engine trace set_engine].
  destruct (engine_quit w (trace self ++ [Quit h]) h);
    cbn [snd trace set_engine]; by rewrite <- app_assoc.
Qed.

End EngineMore.

(* ================================================================== *)
(** * Further properties of the analyzer                                 *)
(* ================================================================== *)

Section AnalyzerMore.
Import Float64 FenNotation Chess StockfishEngine ChessAnalyzer.
Context `{lib : ChessLib}.
Variable w : Engine.

(** The result of [analyze_position] on a notation that parses, in terms
    of the dictionary of the engine session. *)
Lemma analyze_position_valid (self : ChessAnalyzer) (fen : string)
    (depth : Z) (time_limit : float) (board : Board) :
  chess_Board fen = Ok board ->
  analyze_position w self fen depth time_limit
  = let r := get_best_move w (stockfish self) fen depth time_limit in
    (<["fen" := PyStr fen]>
     (<["best_move" := dict_get r.1 "best_move" PyNone]>
     (<["score" := dict_get r.1 "score" PyNone]>
     (<["depth" := dict_get r.1 "depth" PyNone]>
     (<["pv" := dict_get r.1 "pv" (PyList [])]> ∅)))),
     {| stockfish := r.2; piece_names := piece_names self |}).
Proof.
  intros Hboard. unfold analyze_position. rewrite Hboard.
  by destruct (get_best_move w (stockfish self) fen depth time_limit).
Qed.

(** X17. On a notation that parses, the dictionary [analyze_position]
    returns always has the five keys ["fen"], ["best_move"], ["score"],
    ["depth"] and ["pv"], and never the key ["error"], whatever the engine
    session did.  When the session's dictionary is a result, the four
    values are passed through unchanged. *)
Theorem analyze_position_keys (self : ChessAnalyzer) (fen : string)
    (depth : Z) (time_limit : float) (board : Board) :
  chess_Board fen = Ok board ->
  let r := get_best_move w (stockfish self) fen depth time_limit in
  let a := analyze_position w self fen depth time_limit in
  dom a.1 = ({["fen"; "best_move"; "score"; "depth"; "pv"]} : gset string) /\
  a.1 !! "fen" = Some (PyStr fen) /\
  a.1 !! "error" = None /\
  (r.1 !! "error" = None ->
   a.1 !! "best_move" = r.1 !! "best_move" /\
   a.1 !! "score" = r.1 !! "score" /\
   a.1 !! "depth" = r.1 !! "depth" /\
   a.1 !! "pv" = r.1 !! "pv") /\
  stockfish a.2 = r.2 /\
  piece_names a.2 = piece_names self.
Proof.
  intros Hboard r a. subst a.
  rewrite (analyze_position_valid _ _ _ _ _ Hboard). fold r. cbv zeta.
  cbn [fst snd stockfish piece_names].
  split; [rewrite !dom_insert_L, dom_empty_L; set_solver|].
  split; [by simplify_map_eq|]. split; [by simplify_map_eq|].
  split; [|done]. intros Hok. unfold dict_get.
  destruct (get_best_move_shape w (stockfish self) fen depth time_limit)
    as [Hr | [[msg Hr] | (bm & sc & dp & pv & Hr & _)]]; fold r in Hr;
    rewrite Hr in *; unfold error_dict in *; by simplify_map_eq.
Qed.

(** X18. An error of the engine session is not passed on: when the
    session answers with an error dictionary, [analyze_position] returns
    a dictionary without the error text, in which the move, the score and
    the depth are [None] and the line is empty. *)
Theorem analyze_position_hides_engine_error (self : ChessAnalyzer)
    (fen : string) (depth : Z) (time_limit : float) (board : Board) :
  chess_Board fen = Ok board ->
  is_Some ((get_best_move w (stockfish self) fen depth time_limit).1
           !! "error") ->
  (analyze_position w self fen depth time_limit).1
  = <["fen" := PyStr fen]> (<["best_move" := PyNone]>
    (<["score" := PyNone]> (<["depth" := PyNone]>
    (<["pv" := PyList []]> ∅)))).
Proof.
  intros Hboard [e He].
  rewrite (analyze_position_valid _ _ _ _ _ Hboard). cbv zeta. cbn [fst].
  unfold dict_get.
  destruct (get_best_move_shape w (stockfish self) fen depth time_limit)
    as [Hr | [[msg Hr] | (bm & sc & dp & pv & Hr & _)]];
    rewrite Hr in *; unfold error_dict in *; by simplify_map_eq.
Qed.

(** X19. When the position and a move of four characters or more both
    parse, the description names the origin and the destination square of
    the move, in this order, as ["from <origin> to <destination>"].
    Before them it has ["Move "] when the origin square is empty, and then
    nothing follows; otherwise it has the colour and the name of the
    piece on the origin square. *)
Theorem format_move_names_squares (self : ChessAnalyzer) (fen text : string)
    (board : Board) (move : Move) :
  (4 <= String.length text)%nat ->
  chess_Board fen = Ok board ->
  from_uci text = Ok move ->
  exists subject tail,
    format_move_with_pieces self fen (Some text)
    = subject +:+ "from " +:+ square_name (from_square move) +:+ " to " +:+
      square_name (to_square move) +:+ tail /\
    match piece_at board (from_square move) with
    | None => subject = "Move " /\ tail = ""
    | Some piece =>
        subject = color_name (color piece) +:+ " " +:+
                  piece_name self (piece_type piece) +:+ " "
    end.
Proof.
  intros Hlen Hboard Hmove. unfold format_move_with_pieces.
  destruct (String.eqb_spec text "") as [-> | _]; [cbn in Hlen; lia|].
  destruct (Nat.ltb_spec (String.length text) 4); [lia|]. cbn [orb].
  unfold format_move_try. rewrite Hboard, bind_Ok, Hmove, bind_Ok.
  destruct (piece_at board (from_square move)) as [piece|].
  - eexists _, _. split; [|reflexivity].
    rewrite !str_app_assoc. reflexivity.
  - exists "Move ", "". split; [|done]. by rewrite str_app_nil_r.
Qed.

End AnalyzerMore.

(* ================================================================== *)
(** * Properties of a run of the overlay's analysis                      *)
(* ================================================================== *)

Section OverlayFacts.
Import Float64 BoardDetector FenNotation Chess StockfishEngine OverlayApp.
Context `{cv : OpenCV} `{lib : ChessLib}.
Variable w : Engine.

(** The notation [get_position_fen] returns is not empty. *)
Lemma position_fen_nonempty (classify : classifier)
    (board_image : option ndarray) :
  String.eqb (get_position_fen_with classify board_image).2 "" = false.
Proof.
  unfold get_position_fen_with.
  destruct (position_fen_try classify board_image) as [fen|msg] eqn:Htry;
    [|reflexivity].
  unfold position_fen_try in Htry.
  destruct board_image as [image|]; [|done]. rewrite bind_Ok in Htry.
  destruct (for_in (range 8) _ _) as [board|msg]; [|done].
  rewrite bind_Ok, board_to_fen_row_step in Htry.
  destruct (for_in (range 8) (row_step board) "") as [f|msg]; [|done].
  injection Htry as <-. by destruct f.
Qed.

(** The notation the detector hands to the analyzer is not empty. *)
Lemma class_fen_nonempty (image : ndarray) :
  String.eqb (get_position_fen (Some image)).2 "" = false.
Proof. apply position_fen_nonempty. Qed.

(** The announcement is never empty, so it is handed to the speech
    service. *)
Lemma speak_best_move (move_text : string) :
  speak ("Best move: " +:+ move_text) = [Speak ("Best move: " +:+ move_text)].
Proof. reflexivity. Qed.

(** X20. On a screenshot that has pixels, when no contour passes the
    detector's test, the run asks for the two status texts
    ["Detecting board..."] and ["Could not detect chess board"] and for
    nothing else: nothing is spoken, and the analyzer and its engine
    session are not touched. *)
Theorem overlay_no_board (self : ChessOverlayWidget) (screenshot : ndarray) :
  no_pixels (to_gray screenshot) = false ->
  (forall c, c ∈ findContours (adaptiveThreshold (to_gray screenshot)) ->
     ~ passes (board_detector self) c) ->
  let run := analyze_position w self (Ok screenshot) in
  run.1 = [SetStatus "Detecting board...";
           SetStatus "Could not detect chess board"] /\
  analyzer run.2 = analyzer self /\
  analyzing run.2 = false.
Proof.
  intros Hpx Hnone run. subst run. unfold analyze_position.
  rewrite (detect_board_pixels _ _ Hpx).
  by rewrite (first_board_none _ _ _ (proj2 (Forall_forall _ _) Hnone)).
Qed.

(** X24. On a screenshot without pixels the detector raises, the run
    catches the exception and schedules the callback of the [except]
    branch after the first status text, and nothing else: nothing is
    spoken and the analyzer is not touched.  Called by the clock, that
    callback raises [NameError] and leaves the widget as it is. *)
Theorem overlay_no_pixels (self : ChessOverlayWidget) (screenshot : ndarray) :
  no_pixels (to_gray screenshot) = true ->
  let run := analyze_position w self (Ok screenshot) in
  let msg := cv2_error match screenshot with
                       | Color _ => "cvtColor"
                       | Gray _ => "adaptiveThreshold"
                       end in
  run.1 = [SetStatus "Detecting board..."; ErrorStatus msg] /\
  analyzer run.2 = analyzer self /\
  analyzing run.2 = false /\
  forall widget, exists text,
    run_callback widget (ErrorStatus msg) = (Raise text, widget).
Proof.
  intros Hpx run msg. subst run msg. unfold analyze_position.
  rewrite (detect_board_no_pixels _ _ Hpx). do 3 (split; [done|]).
  intros widget. by eexists.
Qed.

(** X21. Every run of the worker clears the [analyzing] flag, so that the
    next [start_analysis] starts a worker again.  The status ["Could not
    recognize position"] is never asked for, and neither is a status
    that starts with ["Error: "].  A run ends with the status ["Could
    not detect chess board"]; or with the callback of the [except]
    branch, which raises [NameError] when the clock calls it and sets no
    status; or with the display of a result followed by its
    announcement, and what is spoken is the move text that is
    displayed. *)
Theorem overlay_run_ends (self : ChessOverlayWidget)
    (take_screenshot : res ndarray) :
  let run := analyze_position w self take_screenshot in
  analyzing run.2 = false /\
  (start_analysis run.2).1 = true /\
  (SetStatus "Could not recognize position" ∉ run.1) /\
  (forall msg, SetStatus ("Error: " +:+ msg) ∉ run.1) /\
  ((exists before,
       run.1 = (before ++ [SetStatus "Could not detect chess board"])%list) \/
   (exists before msg,
       run.1 = (before ++ [ErrorStatus msg])%list /\
       forall widget, exists text,
         run_callback widget (ErrorStatus msg) = (Raise text, widget)) \/
   (exists best_move move_text score,
       run.1 = [SetStatus "Detecting board...";
                SetStatus "Recognizing position...";
                SetStatus "Analyzing with Stockfish...";
                UpdateResults best_move move_text score;
                Speak ("Best move: " +:+ move_text)])).
Proof.
  intros run. subst run. unfold analyze_position.
  assert (Hne : forall (text : string) (rs : list request),
            Forall (fun r => r <> SetStatus text) rs -> SetStatus text ∉ rs).
  { intros text rs Hrs Hin. rewrite Forall_forall in Hrs.
    by apply (Hrs _ Hin). }
  destruct take_screenshot as [screenshot|msg].
  2:{ cbn. do 2 (split; [done|]). split; [|split].
      - apply Hne. by repeat constructor.
      - intros m. apply Hne. by repeat constructor.
      - right; left. exists [], msg. split; [done|]. by eexists. }
  destruct (detect_board (board_detector self) screenshot)
    as [[board_image|]|msg].
  - rewrite class_fen_nonempty.
    destruct (ChessAnalyzer.analyze_position w (analyzer self) _ 18 (of_Z 2))
      as [result an].
    destruct (format_move an _ _) as [move_text|msg].
    + rewrite speak_best_move. cbn. do 2 (split; [done|]). split; [|split].
      * apply Hne. by repeat constructor.
      * intros m. apply Hne. by repeat constructor.
      * right; right. by eexists _, _, _.
    + cbn. do 2 (split; [done|]). split; [|split].
      * apply Hne. by repeat constructor.
      * intros m. apply Hne. by repeat constructor.
      * right; left. eexists [_; _; _], _. split; [done|]. by eexists.
  - cbn. do 2 (split; [done|]). split; [|split].
    + apply Hne. by repeat constructor.
    + intros m. apply Hne. by repeat constructor.
    + left. by eexists [_].
  - cbn. do 2 (split; [done|]). split; [|split].
    + apply Hne. by repeat constructor.
    + intros m. apply Hne. by repeat constructor.
    + right; left. eexists [_], msg. split; [done|]. by eexists.
Qed.

(** X22. When a board is found and its notation parses but the engine
    session answers with an error dictionary, the error text reaches
    neither the display nor the speech: the run asks for the display of
    the move [None] with the text ["No move available"] and speaks
    ["Best move: No move available"].  The display then sets the status
    text and raises [TypeError], the move being [None], and leaves the
    arrow as it was. *)
Theorem overlay_engine_error (self : ChessOverlayWidget)
    (screenshot board_image : ndarray) (board : Board) :
  detect_board (board_detector self) screenshot = Ok (Some board_image) ->
  let fen := (get_position_fen (Some board_image)).2 in
  chess_Board fen = Ok board ->
  is_Some ((get_best_move w (ChessAnalyzer.stockfish (analyzer self)) fen 18
              (of_Z 2)).1 !! "error") ->
  let run := analyze_position w self (Ok screenshot) in
  run.1 = [SetStatus "Detecting board...";
           SetStatus "Recognizing position...";
           SetStatus "Analyzing with Stockfish...";
           UpdateResults PyNone "No move available" PyNone;
           Speak "Best move: No move available"] /\
  let shown :=
    update_analysis_results run.2 PyNone "No move available" PyNone in
  shown.1 = Raise "'NoneType' object is not subscriptable" /\
  status_text shown.2
  = "Best move: No move available" +:+ nl +:+ "Score: None" /\
  best_move_start shown.2 = best_move_start self /\
  best_move_end shown.2 = best_move_end self.
Proof.
  intros Hfound fen Hboard [e He] run. subst run.
  unfold analyze_position. rewrite Hfound, class_fen_nonempty. fold fen.
  clearbody fen. clear Hfound.
  rewrite (analyze_position_valid w _ _ _ _ _ Hboard). cbv zeta.
  assert (Hbm : (get_best_move w (ChessAnalyzer.stockfish (analyzer self))
                   fen 18 (of_Z 2)).1 !! "best_move" = None /\
                (get_best_move w (ChessAnalyzer.stockfish (analyzer self))
                   fen 18 (of_Z 2)).1 !! "score" = None).
  { destruct (get_best_move_shape w (ChessAnalyzer.stockfish (analyzer self))
                fen 18 (of_Z 2))
      as [Hr | [[msg Hr] | (bm & sc & dp & pv & Hr & _)]];
      rewrite Hr in *; unfold error_dict in *; by simplify_map_eq. }
  destruct Hbm as [Hbm Hsc].
  unfold ChessAnalyzer.dict_get. rewrite !Hbm, !Hsc. cbn [default].
  cbv beta iota. clear. simplify_map_eq. by repeat split.
Qed.

End OverlayFacts.

(* ================================================================== *)
(** * Further runs on concrete inputs                                    *)
(* ================================================================== *)

Section MoreRuns.
Import Float64 BoardDetector FenNotation Chess StockfishEngine.
Import Samples.
#[local] Existing Instance mini_chess.

Lemma board_to_fen_index_error_witness :
  _board_to_fen initial_grid = Ok starting_fen /\
  _board_to_fen (take 7 initial_grid) = Raise "list index out of range".
Proof.
  split.
  - rewrite (proj1 (board_to_fen_index_error initial_grid)); [reflexivity|].
    split; [cbn; lia|]. cbn. repeat (constructor; [cbn; lia|]). constructor.
  - apply (proj2 (board_to_fen_index_error (take 7 initial_grid))).
    intros [Hlen _]. cbn in Hlen. lia.
Defined.

Lemma board_to_fen_reads_crop_witness :
  _board_to_fen (map (fun brow => brow ++ ["k"; "k"])%list initial_grid
                 ++ [replicate 10 "q"])%list
  = _board_to_fen initial_grid.
Proof. apply board_to_fen_reads_crop. reflexivity. Defined.

Lemma get_position_fen_all_mid_witness :
  @get_position_fen no_board_cv (Some mid_gray_board) = ([], empty_fen).
Proof.
  apply (@get_position_fen_all_mid no_board_cv mid_gray_board).
  intros row col Hrow Hcol.
  do 8 (destruct row as [|row];
        [do 8 (destruct col as [|col]; [vm_compute; split; reflexivity|]);
         lia|]).
  lia.
Defined.

Lemma get_position_fen_tiny_witness :
  @get_position_fen no_board_cv (Some sliver) = ([], black_pawns_fen).
Proof. apply (@get_position_fen_tiny no_board_cv). cbn. lia. Defined.

Lemma get_position_fen_decodes_witness :
  let classify : classifier := @own_classifier no_board_cv in
  decode_placement
    (placement_field (get_position_fen_with classify (Some top_left_bright)).2)
  = Some (reverse (image_labels classify top_left_bright)).
Proof.
  intros classify. apply get_position_fen_decodes.
  - intros row col _ _. by eexists.
  - intros row col _ _.
    pose proof (@reference_labels no_board_cv top_left_bright row col) as Hl.
    rewrite !elem_of_cons, elem_of_nil in Hl.
    unfold piece_labels. rewrite !elem_of_cons. tauto.
Defined.

Lemma detect_board_first_match_witness :
  @detect_board board_cv BoardDetector.__init__ blank_image
  = (warped ← @rectify board_cv blank_image large_square; Ok (Some warped)).
Proof.
  apply (@detect_board_first_match board_cv BoardDetector.__init__ blank_image
           [triangle] large_square []).
  - reflexivity.
  - reflexivity.
  - constructor; [|constructor]. intros [Hlen _]. discriminate Hlen.
  - split; vm_compute; reflexivity.
Defined.

Lemma rectify_corners_witness :
  exists tl tr br bl,
    large_square ≡ₚ [tl; tr; br; bl] /\
    (forall p, p ∈ large_square ->
       tl.1 + tl.2 <= p.1 + p.2 <= br.1 + br.2) /\
    tr.2 - tr.1 <= bl.2 - bl.1 /\
    @rectify board_cv blank_image large_square
    = (w ← to_int (py_max (norm tr tl) (norm br bl));
       h ← to_int (py_max (norm bl tl) (norm br tr));
       Ok (@warpPerspective board_cv blank_image
             (@getPerspectiveTransform board_cv [tl; tr; br; bl]
                [(0, 0); (Z.max w h - 1, 0);
                 (Z.max w h - 1, Z.max w h - 1); (0, Z.max w h - 1)])
             (Z.max w h, Z.max w h))).
Proof.
  exact (@rectify_corners board_cv blank_image large_square eq_refl).
Defined.

Lemma get_best_move_traffic_witness :
  let self := session0 steady_engine in
  let limit := {| limit_depth := 18; limit_time := two_seconds |} in
  let after :=
    (get_best_move steady_engine self starting_fen 18 two_seconds).2 in
  engine after = Some 0%nat /\
  trace after
  = [Popen "stockfish"; Configure 0%nat 2 32;
     Analyse 0%nat initial_grid limit; Play 0%nat initial_grid limit].
Proof.
  intros self limit after.
  destruct (get_best_move_traffic steady_engine self 0%nat starting_fen 18
              two_seconds eq_refl) as (He & _ & Ht).
  split; [exact He|]. unfold after. rewrite Ht. reflexivity.
Defined.

Lemma get_best_move_invalid_fen_witness :
  get_best_move steady_engine (session0 steady_engine) "not a position" 18
    two_seconds
  = (error_dict
       "Analysis error: expected 8 rows of 8 squares in fen: 'not a position'",
     session0 steady_engine).
Proof.
  apply (proj1 (get_best_move_invalid_fen steady_engine
                  (session0 steady_engine) "not a position" 18 two_seconds
                  "expected 8 rows of 8 squares in fen: 'not a position'"
                  eq_refl)).
  by eexists.
Defined.

Lemma unstartable_engine_retries_witness :
  let self := session0 unstartable_engine in
  let request := fun s =>
    (get_best_move unstartable_engine s starting_fen 18 two_seconds).2 in
  engine (Nat.iter 3 request self) = None /\
  trace (Nat.iter 3 request self) = replicate 4 (Popen "stockfish").
Proof.
  intros self request.
  destruct (unstartable_engine_retries unstartable_engine self starting_fen 18
              two_seconds 3 eq_refl) as (He & _ & Ht & _).
  - intros history path. by eexists.
  - split; [exact He|]. fold request in Ht. rewrite Ht. reflexivity.
Defined.

Lemma quit_failure_keeps_handle_witness :
  let self := session0 stubborn_engine in
  (quit stubborn_engine self).1 = Raise "engine process died unexpectedly" /\
  engine (quit stubborn_engine self).2 = Some 0%nat.
Proof.
  intros self.
  destruct (quit_failure_keeps_handle stubborn_engine self 0%nat
              "engine process died unexpectedly" eq_refl eq_refl)
    as (Hraise & Hkept & _).
  by split.
Defined.

Lemma analyze_position_keys_witness :
  let a := ChessAnalyzer.analyze_position quiet_engine
             (analyzer0 quiet_engine) starting_fen 18 two_seconds in
  a.1 !! "fen" = Some (PyStr starting_fen) /\
  a.1 !! "error" = None /\
  a.1 !! "best_move" = Some (PyStr "e2e4").
Proof.
  intros a.
  destruct (analyze_position_keys quiet_engine (analyzer0 quiet_engine)
              starting_fen 18 two_seconds initial_grid eq_refl)
    as (_ & Hfen & Herr & Hpass & _).
  split; [exact Hfen|]. split; [exact Herr|].
  destruct Hpass as (Hbm & _); [vm_compute; reflexivity|].
  unfold a. rewrite Hbm. vm_compute. reflexivity.
Defined.

Lemma analyze_position_hides_engine_error_witness :
  (ChessAnalyzer.analyze_position unstartable_engine
     (analyzer0 unstartable_engine) starting_fen 18 two_seconds).1
  = <["fen" := PyStr starting_fen]> (<["best_move" := PyNone]>
    (<["score" := PyNone]> (<["depth" := PyNone]>
    (<["pv" := PyList []]> ∅)))).
Proof.
  apply (analyze_position_hides_engine_error unstartable_engine
           (analyzer0 unstartable_engine) starting_fen 18 two_seconds
           initial_grid eq_refl).
  exists (PyStr "Could not initialize engine"). vm_compute. reflexivity.
Defined.

Lemma format_move_names_squares_witness :
  exists subject tail,
    ChessAnalyzer.format_move_with_pieces (analyzer0 steady_engine)
      starting_fen (Some "e2e4")
    = subject +:+ "from e2 to e4" +:+ tail /\
    subject = "white pawn ".
Proof.
  destruct (format_move_names_squares (analyzer0 steady_engine) starting_fen
              "e2e4" initial_grid e2e4 (le_n 4) eq_refl eq_refl)
    as (subject & tail & Heq & Hsubject).
  exists subject, tail. split; [exact Heq | exact Hsubject].
Defined.

Lemma overlay_no_board_witness :
  (@OverlayApp.analyze_position no_board_cv mini_chess steady_engine
     (widget0 steady_engine) (Ok blank_image)).1
  = [OverlayApp.SetStatus "Detecting board...";
     OverlayApp.SetStatus "Could not detect chess board"].
Proof.
  refine (proj1 (@overlay_no_board no_board_cv mini_chess steady_engine
                   (widget0 steady_engine) blank_image eq_refl _)).
  intros c Hc [Hlen Harea].
  cbn in Hc. apply elem_of_cons in Hc as [-> | Hc]; [discriminate Hlen|].
  apply elem_of_cons in Hc as [-> | Hc]; [discriminate Harea|].
  by apply elem_of_nil in Hc.
Defined.

Lemma overlay_engine_error_witness :
  (@OverlayApp.analyze_position board_cv mini_chess unstartable_engine
     (widget0 unstartable_engine) (Ok blank_image)).1
  = [OverlayApp.SetStatus "Detecting board...";
     OverlayApp.SetStatus "Recognizing position...";
     OverlayApp.SetStatus "Analyzing with Stockfish...";
     OverlayApp.UpdateResults PyNone "No move available" PyNone;
     OverlayApp.Speak "Best move: No move available"].
Proof.
  assert (Hfen : (@get_position_fen board_cv (Some rectified_board)).2
                 = empty_fen) by (vm_compute; reflexivity).
  refine (proj1 (@overlay_engine_error board_cv mini_chess unstartable_engine
                   (widget0 unstartable_engine) blank_image rectified_board
                   empty_grid _ _ _)).
  - vm_compute. reflexivity.
  - rewrite Hfen. reflexivity.
  - rewrite Hfen. exists (PyStr "Could not initialize engine").
    vm_compute. reflexivity.
Defined.

(** A whole run on the sample screenshot with an engine that reports
    no score: the board found is empty, the engine's move is shown and
    spoken as a move between two squares. *)
Example overlay_run_e2e4 :
  (@OverlayApp.analyze_position board_cv mini_chess quiet_engine
     (widget0 quiet_engine) (Ok blank_image)).1
  = [OverlayApp.SetStatus "Detecting board...";
     OverlayApp.SetStatus "Recognizing position...";
     OverlayApp.SetStatus "Analyzing with Stockfish...";
     OverlayApp.UpdateResults (PyStr "e2e4") "Move from e2 to e4" PyNone;
     OverlayApp.Speak "Best move: Move from e2 to e4"].
Proof. vm_compute. reflexivity. Qed.

(** The same run with an engine that reports a score: the score cannot
    be read, the session answers with an error dictionary, and no move
    is shown. *)
Example overlay_run_with_score :
  (@OverlayApp.analyze_position board_cv mini_chess steady_engine
     (widget0 steady_engine) (Ok blank_image)).1
  = [OverlayApp.SetStatus "Detecting board...";
     OverlayApp.SetStatus "Recognizing position...";
     OverlayApp.SetStatus "Analyzing with Stockfish...";
     OverlayApp.UpdateResults PyNone "No move available" PyNone;
     OverlayApp.Speak "Best move: No move available"].
Proof. vm_compute. reflexivity. Qed.

Lemma get_position_fen_pawns_only_witness :
  exists grid,
    decode_placement
      (placement_field (@get_position_fen no_board_cv (Some top_left_bright)).2)
    = Some grid /\
    length grid = 8%nat /\
    Forall (fun brow : list string =>
              length brow = 8%nat /\
              Forall (fun cell => cell ∈ [" "; "P"; "p"]) brow) grid.
Proof.
  apply (proj2 (proj2 (@get_position_fen_pawns_only no_board_cv
                         top_left_bright))).
  exact (proj1 (@get_position_fen_pawns_only no_board_cv top_left_bright)
           _ eq_refl).
Defined.

Lemma get_position_fen_tiny_colour_witness :
  @get_position_fen no_board_cv
    (Some (Color (replicate 5 (replicate 300 (200, 200, 200)))))
  = (["Error in position extraction: OpenCV: error: (-215:Assertion failed) in function 'cvtColor'"],
     starting_fen).
Proof. apply (@get_position_fen_tiny_colour no_board_cv). cbn. lia. Defined.

Lemma overlay_no_pixels_witness :
  (@OverlayApp.analyze_position no_board_cv mini_chess steady_engine
     (widget0 steady_engine) (Ok (Gray []))).1
  = [OverlayApp.SetStatus "Detecting board...";
     OverlayApp.ErrorStatus
       "OpenCV: error: (-215:Assertion failed) in function 'adaptiveThreshold'"].
Proof.
  exact (proj1 (@overlay_no_pixels no_board_cv mini_chess steady_engine
                  (widget0 steady_engine) (Gray []) eq_refl)).
Defined.

End MoreRuns.
